(** * NanoComp: the dataset-unification and plot-orchestration pipeline

    A shallow embedding of [nanocomp/NanoComp.py] and the properties of
    its name check, run-identifier remapping, metric derivation, raw
    export and plot orchestration.

    Conventions of the embedding:
    - a Python [str] is the list of its Unicode code points; [str.strip]
      removes the characters that CPython counts as white space, and
      [str.upper], the case mapping of the interpreter's Unicode tables,
      is a parameter;
    - a Python [dict] is an insertion-ordered association list whose keys
      are pairwise distinct ([dict_set] keeps that);
    - a pandas [DataFrame] is a list of named columns of cells;
    - a float is an IEEE special value or a finite value, written as the
      rational it denotes; comparisons are exact, and what numpy computes
      in floating point ([np.log10], the interpolation of
      [np.percentile]) is a parameter;
    - the collaborators [nanoget], [nanoplotter], [nanoplot.utils] and the
      file system appear as recorded events and as parameters. *)

From Stdlib Require Import ZArith NArith QArith Qround Strings.Byte.
From stdpp Require Import base option list.

Local Open Scope list_scope.

(** ** Python strings: lists of code points *)

Definition str := list N.

Declare Scope str_scope.
Delimit Scope str_scope with str.
Bind Scope str_scope with str.

(** string literals, for ASCII text: the code points are the bytes *)
Inductive literal :=
| LNil
| LCons (c : N) (s : literal).

Fixpoint literal_of_bytes (l : list Byte.byte) : option literal :=
  match l with
  | [] => Some LNil
  | b :: l' =>
      if (Byte.to_N b <? 128)%N
      then s ← literal_of_bytes l'; Some (LCons (Byte.to_N b) s)
      else None
  end.

Definition bytes_of_literal (s : literal) : option (list Byte.byte) := None.

#[warnings="-via-type-remapping,-via-type-mismatch"]
String Notation str literal_of_bytes bytes_of_literal
  (via literal mapping [[nil] => LNil, [cons] => LCons]) : str_scope.

Local Open Scope str_scope.

(** [a == b] on strings *)
Fixpoint str_eqb (a b : str) : bool :=
  match a, b with
  | [], [] => true
  | x :: a', y :: b' => (x =? y)%N && str_eqb a' b'
  | _, _ => false
  end.

(** ** Results of a call: a value, [sys.exit(msg)], or a raised exception *)

Inductive exn :=
| IndexError
| KeyError (key : str)
| TypeError
| UnicodeDecodeError
| OSError.

Inductive result (A : Type) :=
| Ok (a : A)
| SysExit (msg : str)
| Raise (e : exn).
Arguments Ok {A} a.
Arguments SysExit {A} msg.
Arguments Raise {A} e.

#[global] Instance result_ret : MRet result := fun A a => Ok a.
#[global] Instance result_bind : MBind result := fun A B f m =>
  match m with
  | Ok a => f a
  | SysExit msg => SysExit msg
  | Raise e => Raise e
  end.

(** [try: body  except IndexError: handler] *)
Definition try_except_IndexError {A} (body handler : result A) : result A :=
  match body with
  | Raise IndexError => handler
  | r => r
  end.

(** [l[i]] on a list *)
Definition getitem {A} (l : list A) (i : nat) : result A :=
  match l !! i with
  | Some a => Ok a
  | None => Raise IndexError
  end.

Definition is_ok {A} (r : result A) : bool :=
  match r with Ok _ => true | _ => false end.

(** ** Python string methods used by the mapping-file parser *)

Module PyStr.

Definition tab : N := 9.

(** the characters that [str.strip()] removes: CPython's white space, that
    is U+0009-U+000D, U+001C-U+0020, U+0085, U+00A0, U+1680,
    U+2000-U+200A, U+2028, U+2029, U+202F, U+205F and U+3000 *)
Definition isspace (c : N) : bool :=
  ((0x09 <=? c) && (c <=? 0x0D)
   || (0x1C <=? c) && (c <=? 0x20)
   || (c =? 0x85) || (c =? 0xA0) || (c =? 0x1680)
   || (0x2000 <=? c) && (c <=? 0x200A)
   || (c =? 0x2028) || (c =? 0x2029) || (c =? 0x202F) || (c =? 0x205F)
   || (c =? 0x3000))%N.

Fixpoint lstrip (s : str) : str :=
  match s with
  | [] => []
  | c :: s' => if isspace c then lstrip s' else s
  end.

Fixpoint rstrip (s : str) : str :=
  match s with
  | [] => []
  | c :: s' =>
      match rstrip s' with
      | [] => if isspace c then [] else [c]
      | r => c :: r
      end
  end.

(** [s.strip()] *)
Definition strip (s : str) : str := rstrip (lstrip s).

(** [s.split(sep)] for a one-character separator: never the empty list *)
Fixpoint split (sep : N) (s : str) : list str :=
  match s with
  | [] => [[]]
  | c :: s' =>
      if (c =? sep)%N then [] :: split sep s'
      else match split sep s' with
           | f :: fs => (c :: f) :: fs
           | [] => [[c]]
           end
  end.

(** truth value of a string: non-empty *)
Definition truthy (s : str) : bool :=
  match s with [] => false | _ => true end.

End PyStr.

(** ** Python dictionaries, in insertion order *)

Definition pydict := list (str * str).

(** [d[k] = v]: an existing key keeps its position and takes the new value,
    a new key goes last *)
Fixpoint dict_set (k v : str) (d : pydict) : pydict :=
  match d with
  | [] => [(k, v)]
  | (k', v') :: d' =>
      if str_eqb k' k then (k', v) :: d' else (k', v') :: dict_set k v d'
  end.

(** [d.get(k)] *)
Fixpoint dict_get (k : str) (d : pydict) : option str :=
  match d with
  | [] => None
  | (k', v') :: d' => if str_eqb k' k then Some v' else dict_get k d'
  end.

(** ** The mapping-file parser *)

Definition msg_header : str :=
  "ERROR: Mandatory header of --split_runs tsv file not found: 'NAME', 'RUN_ID'".

Definition msg_format : str :=
  "ERROR: Format of --split_runs tab separated file not as expected".

(** [{c.split('\t')[1]: c.split('\t')[0] for c in data if c}], entry by
    entry into [acc] *)
Fixpoint dict_comprehension (data : list str) (acc : pydict) : result pydict :=
  match data with
  | [] => Ok acc
  | c :: rest =>
      if PyStr.truthy c then
        k ← getitem (PyStr.split PyStr.tab c) 1;
        v ← getitem (PyStr.split PyStr.tab c) 0;
        dict_comprehension rest (dict_set k v acc)
      else dict_comprehension rest acc
  end.

Definition header_fields : list str := ["NAME"; "RUN_ID"].

Section Parser.

(** [str.upper] *)
Variable upper : str -> str.

(** [validate_split_runs_file]; [readlines] is what
    [split_runs_file.readlines()] gives inside the [try]: the lines of the
    file, or the exception of a read that fails *)
Definition validate_split_runs_file (readlines : result (list str))
    : result pydict :=
  try_except_IndexError
    (lines ← readlines;
     let content := PyStr.strip <$> lines in
     h ← getitem content 0;
     if decide (PyStr.split PyStr.tab (upper h) = header_fields)
     then dict_comprehension (drop 1 content) []
     else SysExit msg_header)
    (SysExit msg_format).

End Parser.

(** ** Numbers: float64 values, the finite ones as the rationals they denote *)

Inductive float64 :=
| Fin (q : Q)
| PosInf
| NegInf
| NaN.

Definition is_finite (f : float64) : bool :=
  match f with Fin _ => true | _ => false end.

Definition is_nan (f : float64) : bool :=
  match f with NaN => true | _ => false end.

Definition Qsign (q : Q) : comparison := (0 ?= q)%Q.

(** [a > b]: false as soon as one side is NaN *)
Definition float_gt (a b : float64) : bool :=
  match a, b with
  | NaN, _ | _, NaN => false
  | Fin x, Fin y => negb (Qle_bool x y)
  | PosInf, PosInf => false
  | PosInf, _ => true
  | _, PosInf => false
  | NegInf, _ => false
  | Fin _, NegInf => true
  end.

(** ** pandas: cells, columns, tables *)

Inductive cell :=
| CInt (z : Z)
| CFloat (f : float64)
| CStr (s : str).

Abbreviation column := (list cell).

(** a table: its columns by name, in column order *)
Definition DataFrame := list (str * column).

Fixpoint df_col (name : str) (df : DataFrame) : option column :=
  match df with
  | [] => None
  | (n, col) :: df' => if str_eqb n name then Some col else df_col name df'
  end.

(** [df[name]] *)
Definition df_getitem (name : str) (df : DataFrame) : result column :=
  match df_col name df with
  | Some col => Ok col
  | None => Raise (KeyError name)
  end.

(** [df[name] = col]: replaces the column, or appends it as the last one *)
Fixpoint df_setitem (name : str) (col : column) (df : DataFrame) : DataFrame :=
  match df with
  | [] => [(name, col)]
  | (n, c) :: df' =>
      if str_eqb n name then (n, col) :: df' else (n, c) :: df_setitem name col df'
  end.

Definition df_nrows (df : DataFrame) : nat :=
  match df with
  | [] => 0
  | (_, col) :: _ => length col
  end.

Definition df_columns (df : DataFrame) : list str := df.*1.

(** every column has the table's number of rows *)
Definition df_rect (df : DataFrame) : Prop :=
  Forall (fun nc => length nc.2 = df_nrows df) df.

#[global] Instance df_rect_dec (df : DataFrame) : Decision (df_rect df) :=
  Forall_dec (fun nc : str * column => length nc.2 = df_nrows df) df.

(** [series == s] against a string: a boolean mask *)
Definition series_eq_str (col : column) (s : str) : list bool :=
  (fun c => match c with CStr t => str_eqb t s | _ => false end) <$> col.

(** [df.loc[mask, name] = v]; a column that does not exist yet is created,
    with NaN where the mask is false *)
Definition loc_set (mask : list bool) (name : str) (v : cell)
    (df : DataFrame) : DataFrame :=
  match df_col name df with
  | Some col =>
      df_setitem name (zip_with (fun (m : bool) c => if m then v else c) mask col) df
  | None =>
      df_setitem name ((fun m : bool => if m then v else CFloat NaN) <$> mask) df
  end.

Fixpoint select {A} (mask : list bool) (l : list A) : list A :=
  match mask, l with
  | m :: mask', x :: l' => if m then x :: select mask' l' else select mask' l'
  | _, _ => []
  end.

(** [df[mask]]: the rows where the mask is true, all columns *)
Definition df_filter (mask : list bool) (df : DataFrame) : DataFrame :=
  (fun nc => (nc.1, select mask nc.2)) <$> df.

(** rows of a table, each as the list of its named cells *)
Definition row := list (str * cell).

Definition df_head (df : DataFrame) : option row :=
  mapM (fun nc => match nc.2 with
                  | c :: _ => Some (nc.1, c)
                  | [] => None
                  end) df.

Definition df_tail (df : DataFrame) : DataFrame :=
  (fun nc => (nc.1, tail nc.2)) <$> df.

Fixpoint rows_upto (k : nat) (df : DataFrame) : list row :=
  match k with
  | O => []
  | S k' =>
      match df_head df with
      | Some r => r :: rows_upto k' (df_tail df)
      | None => []
      end
  end.

Definition df_rows (df : DataFrame) : list row := rows_upto (df_nrows df) df.


(** the cell of column [name] at row [i] *)
Definition df_cell (name : str) (i : nat) (df : DataFrame) : option cell :=
  col ← df_col name df; col !! i.

(** ** The remap step *)

(** [change_identifiers]: one [loc] assignment per dictionary item, in the
    dictionary's order *)
Fixpoint change_identifiers (datadf : DataFrame) (split_dict : pydict)
    : result DataFrame :=
  match split_dict with
  | [] => Ok datadf
  | (rid, name) :: rest =>
      runs ← df_getitem "runIDs" datadf;
      change_identifiers
        (loc_set (series_eq_str runs rid) "dataset" (CStr name) datadf) rest
  end.

(** ** numpy on columns *)

(** a numeric cell as a float; a string cell is a [TypeError] *)
Definition cell_to_float (c : cell) : result float64 :=
  match c with
  | CInt z => Ok (Fin (inject_Z z))
  | CFloat f => Ok f
  | CStr _ => Raise TypeError
  end.

Fixpoint series_to_floats (col : column) : result (list float64) :=
  match col with
  | [] => Ok []
  | c :: col' =>
      f ← cell_to_float c;
      fs ← series_to_floats col';
      Ok (f :: fs)
  end.

(** [series > x] against a number *)
Definition series_gt (col : column) (x : float64) : result (list bool) :=
  fs ← series_to_floats col; Ok (map (fun f => float_gt f x) fs).

Section Percentile.

(** the value that numpy interpolates, in the arithmetic of the column's
    type, from a column of numbers that is not empty and holds no NaN, for
    the percentile asked *)
Variable interpolate : column -> Q -> float64.

(** [np.percentile(col, q)]: a string in the column is a [TypeError]; a
    NaN among the values gives NaN; with no value at all the lookup among
    the sorted values fails, an [IndexError] *)
Definition np_percentile (col : column) (q : Q) : result float64 :=
  a ← series_to_floats col;
  match a with
  | [] => Raise IndexError
  | _ :: _ => if existsb is_nan a then Ok NaN else Ok (interpolate col q)
  end.

End Percentile.

Section Log10.

(** [log10] on the positive finite doubles, as the platform computes it *)
Variable log10_pos : Q -> Q.

(** [np.log10] on one value: minus infinity at zero, NaN below; no guard *)
Definition np_log10 (f : float64) : float64 :=
  match f with
  | Fin x =>
      match Qsign x with
      | Lt => Fin (log10_pos x)
      | Eq => NegInf
      | Gt => NaN
      end
  | PosInf => PosInf
  | NegInf => NaN
  | NaN => NaN
  end.

(** [np.log10(series)], element by element *)
Fixpoint np_log10_series (col : column) : result column :=
  match col with
  | [] => Ok []
  | c :: col' =>
      f ← cell_to_float c;
      rest ← np_log10_series col';
      Ok (CFloat (np_log10 f) :: rest)
  end.

End Log10.

(** ** Command line, events, and the effectful pipeline *)

(** the namespace that [parse_args] returns; [F] is what [--split_runs]
    holds: a path on the command line, an open file once parsed *)
Record Args (F : Type) := mkArgs {
  threads : Z;
  outdir : str;
  prefix : str;
  verbose : bool;
  raw : bool;
  readtype : str;
  split_runs : option F;
  format : str;
  names : option (list str);
  plot : str;
  title : option str;
  fastq : option (list str);
  summary : option (list str);
  bam : option (list str)
}.
Arguments mkArgs {F}.
Arguments threads {F}.
Arguments outdir {F}.
Arguments prefix {F}.
Arguments verbose {F}.
Arguments raw {F}.
Arguments readtype {F}.
Arguments split_runs {F}.
Arguments format {F}.
Arguments names {F}.
Arguments plot {F}.
Arguments title {F}.
Arguments fastq {F}.
Arguments summary {F}.
Arguments bam {F}.

Definition with_split_runs {F G} (a : Args F) (s : option G) : Args G :=
  mkArgs (threads a) (outdir a) (prefix a) (verbose a) (raw a) (readtype a)
         s (format a) (names a) (plot a) (title a) (fastq a) (summary a) (bam a).

Definition with_format {F} (a : Args F) (f : str) : Args F :=
  mkArgs (threads a) (outdir a) (prefix a) (verbose a) (raw a) (readtype a)
         (split_runs a) f (names a) (plot a) (title a) (fastq a) (summary a) (bam a).

(** an open text file: where it is, and what its [readlines()] will give *)
Record file := mkFile { fpath : str; freadlines : result (list str) }.

(** truth value of an optional list: given and non-empty *)
Definition truthy_list {A} (o : option (list A)) : bool :=
  match o with
  | Some (_ :: _) => true
  | _ => false
  end.

(** [[f for f in sources if f]] *)
Definition truthy_lists {A} (sources : list (option (list A))) : list (list A) :=
  omap (fun o => match o with
                 | Some (x :: l) => Some (x :: l)
                 | _ => None
                 end) sources.

(** [[n for n, s in zip(sourcename, sources) if s]] *)
Definition truthy_names {A} (sourcename : list str)
    (sources : list (option (list A))) : list str :=
  omap (fun ns : str * option (list A) =>
          if truthy_list ns.2 then Some ns.1 else None)
       (zip sourcename sources).

(** what the process does to the outside, in order *)
Inductive event :=
| EvOpenRead (path : str)
| EvMakeOutputDir (dir : str)
| EvInitLogs (tool : str)
| EvReadlines (path : str)
| EvGetInput (source : str) (files : list str) (nthreads : Z)
    (rtype : str) (dnames : option (list str)) (combine : str)
| EvToCsv (fname : str) (sep : N) (index : bool) (compression : str)
    (df : DataFrame)
| EvBarplot (df : DataFrame) (figformat path : str) (ptitle : option str)
| EvViolinOrBox (df : DataFrame) (y : str) (figformat path : str)
    (violin : bool) (log : option bool) (ptitle : option str)
| EvLogInfo (msg : str)
| EvLogError (e : exn).

(** a computation: the events it caused, and how it ended *)
Definition M (A : Type) : Type := list event * result A.

#[global] Instance M_ret : MRet M := fun A a => ([], Ok a).
#[global] Instance M_bind : MBind M := fun A B f m =>
  match m.2 with
  | Ok a => (m.1 ++ (f a).1, (f a).2)
  | SysExit msg => (m.1, SysExit msg)
  | Raise e => (m.1, Raise e)
  end.

Definition emit (e : event) : M unit := ([e], Ok tt).
Definition lift {A} (r : result A) : M A := ([], r).

(** [try: body  except Exception as e: logging.error(e); raise];
    [SystemExit] is not an [Exception] and passes through *)
Definition try_except_Exception {A} (body : M A) : M A :=
  match body.2 with
  | Raise e => (body.1 ++ [EvLogError e], Raise e)
  | _ => body
  end.

Definition trace {A} (m : M A) : list event := m.1.
Definition outcome {A} (m : M A) : result A := m.2.

Definition slash : N := 47.

(** [os.path.join(a, b)] on POSIX *)
Definition path_join (a b : str) : str :=
  match b with
  | 47%N :: _ => b
  | _ =>
      match a with
      | [] => b
      | _ => if bool_decide (last a = Some slash)
             then a ++ b else a ++ slash :: b
      end
  end.

Definition msg_names : str :=
  "ERROR: Number of names (-n) should be same as number of files specified!".

Definition msg_argparse_open : str :=
  "argument --split_runs: can't open file".

Definition raw_export_name : str := "NanoComp-data.tsv.gz".

Section Pipeline.

(** the files that can be opened for reading, each with what reading its
    lines will give *)
Variable fs : str -> option (result (list str)).

(** [nanoget.get_input]: the unified table of the chosen source *)
Variable get_input :
  str -> list str -> Z -> str -> option (list str) -> str -> DataFrame.

(** [nanoplotter.check_valid_format] *)
Variable check_valid_format : str -> str.

Variable upper : str -> str.

Variable log10_pos : Q -> Q.

Variable interpolate : column -> Q -> float64.

(** [parser.parse_args()]: the [FileType('r')] of [--split_runs] opens the
    file while the command line is parsed *)
Definition parse_args (cl : Args str) : M (Args file) :=
  match split_runs cl with
  | None => mret (with_split_runs cl None)
  | Some p =>
      emit (EvOpenRead p);;
      match fs p with
      | Some r => mret (with_split_runs cl (Some (mkFile p r)))
      | None => lift (SysExit msg_argparse_open)
      end
  end.

(** the check at the end of [get_args] *)
Definition check_names {F} (args : Args F) : result unit :=
  if truthy_list (names args) then
    nfiles ← getitem (length <$> truthy_lists [fastq args; summary args; bam args]) 0;
    if decide (length (default [] (names args)) = nfiles) then Ok tt
    else SysExit msg_names
  else Ok tt.

Definition get_args (cl : Args str) : M (Args file) :=
  args ← parse_args cl;
  lift (check_names args);;
  mret args.

Definition make_plots (df : DataFrame) (path : str) (args : Args file)
    : M DataFrame :=
  lengths ← lift (df_getitem "lengths" df);
  loglen ← lift (np_log10_series log10_pos lengths);
  let df := df_setitem "log length" loglen df in
  let violin := if decide (plot args = "violin") then true else false in
  emit (EvBarplot df (format args) path (title args));;
  emit (EvViolinOrBox df "lengths" (format args) path violin None (title args));;
  emit (EvViolinOrBox df "log length" (format args) path violin (Some true)
          (title args));;
  emit (EvViolinOrBox df "quals" (format args) path violin None (title args));;
  (if truthy_list (bam args) then
     ident ← lift (df_getitem "percentIdentity" df);
     p ← lift (np_percentile interpolate ident 1);
     mask ← lift (series_gt ident p);
     emit (EvViolinOrBox (df_filter mask df) "percentIdentity" (format args) path
             violin None (title args))
   else mret tt);;
  mret df.

Definition main (cl : Args str) : M unit :=
  args ← get_args cl;
  try_except_Exception
    (emit (EvMakeOutputDir (outdir args));;
     emit (EvInitLogs "NanoComp");;
     let args := with_format args (check_valid_format (format args)) in
     let sources := [fastq args; bam args; summary args] in
     let sourcename := ["fastq"; "bam"; "summary"] in
     split_dict ←
       match split_runs args with
       | Some f =>
           emit (EvReadlines (fpath f));;
           d ← lift (validate_split_runs_file upper (freadlines f));
           mret (Some d)
       | None => mret None
       end;
     source ← lift (getitem (truthy_names sourcename sources) 0);
     files ← lift (getitem (truthy_lists sources) 0);
     emit (EvGetInput source files (threads args) (readtype args) (names args)
             "track");;
     let datadf :=
       get_input source files (threads args) (readtype args) (names args) "track" in
     (if raw args
      then emit (EvToCsv raw_export_name PyStr.tab false "gzip" datadf)
      else mret tt);;
     datadf ←
       match split_dict with
       | Some d => lift (change_identifiers datadf d)
       | None => mret datadf
       end;
     make_plots datadf (path_join (outdir args) (prefix args)) args;;
     emit (EvLogInfo "Succesfully processed all input.")).

End Pipeline.

(** ** The error kinds, as the process shows them *)

Definition is_FormatError {A} (r : result A) : Prop :=
  r = SysExit msg_header \/ r = SysExit msg_format.

Definition is_ConfigurationError {A} (r : result A) : Prop :=
  r = SysExit msg_names.

(** the lines the parser works on: every line stripped, header apart *)
Definition header_line (lines : list str) : option str :=
  (PyStr.strip <$> lines) !! 0.

Definition data_rows (lines : list str) : list str :=
  drop 1 (PyStr.strip <$> lines).

Definition fields (c : str) : list str := PyStr.split PyStr.tab c.

(** the header test: in capitals, the fields are NAME and RUN_ID *)
Definition header_ok (upper : str -> str) (h : str) : Prop :=
  fields (upper h) = header_fields.

#[global] Instance header_ok_dec (upper : str -> str) (h : str)
    : Decision (header_ok upper h) :=
  decide (fields (upper h) = header_fields).

(** row [c] of the mapping file names run [rid] as [name] *)
Definition names_run (c rid name : str) : Prop :=
  c <> [] /\ fields c !! 1 = Some rid /\ fields c !! 0 = Some name.

(** the overwrite of one dictionary item, on one label *)
Definition overwrite (rid name : str) (run label : cell) : cell :=
  match run with
  | CStr t => if str_eqb t rid then CStr name else label
  | _ => label
  end.

(** what the remap step makes of one label, given the run of its row: one
    overwrite per dictionary item, in order *)
Definition relabel (d : pydict) (run label : cell) : cell :=
  foldl (fun acc item =>
           match run with
           | CStr t => if str_eqb t item.1 then CStr item.2 else acc
           | _ => acc
           end) label d.

(** ** Reading the plot requests *)

(** the table that [make_plots] hands to the plots: [df] with its
    [log length] column set from the lengths [fl] *)
Definition with_log_length (log10_pos : Q -> Q) (fl : list float64)
    (df : DataFrame) : DataFrame :=
  df_setitem "log length" ((fun f => CFloat (np_log10 log10_pos f)) <$> fl) df.

(** the metric a request plots; the bar plot has none *)
Definition request_metric (e : event) : option str :=
  match e with
  | EvViolinOrBox _ y _ _ _ _ _ => Some y
  | _ => None
  end.

Definition is_plot_request (e : event) : bool :=
  match e with
  | EvBarplot _ _ _ _ | EvViolinOrBox _ _ _ _ _ _ _ => true
  | _ => false
  end.



(** the tables written by the raw export, with their file names *)
Definition exports (t : list event) : list (str * DataFrame) :=
  omap (fun e => match e with
                 | EvToCsv fname _ _ _ df => Some (fname, df)
                 | _ => None
                 end) t.



(** ** Reading the command line *)

(** exactly one input kind was given, with its files (the parser's
    required, mutually exclusive group; each option takes one file or more) *)
Definition chosen {F} (a : Args F) (kind : str) (files : list str) : Prop :=
  files <> [] /\
  ((kind = "fastq" /\ fastq a = Some files /\ summary a = None /\ bam a = None)
   \/ (kind = "summary" /\ fastq a = None /\ summary a = Some files /\ bam a = None)
   \/ (kind = "bam" /\ fastq a = None /\ summary a = None /\ bam a = Some files)).

(** what parsing the command line does to the outside: it opens the
    mapping file, when one is named *)
Definition parse_events {F} (cl : Args F) (path_of : F -> str) : list event :=
  match split_runs cl with
  | Some p => [EvOpenRead (path_of p)]
  | None => []
  end.

Definition is_export (e : event) : bool :=
  match e with
  | EvToCsv _ _ _ _ _ => true
  | _ => false
  end.

(** ** The end of a run *)

Section Tail.

Variable log10_pos : Q -> Q.

Variable interpolate : column -> Q -> float64.

(** the part of [main] that follows ingestion and the raw export: the
    remap, the plots, the closing log line *)
Definition after_export (args : Args file) (split_dict : option pydict)
    (datadf : DataFrame) : M unit :=
  datadf ←
    match split_dict with
    | Some d => lift (change_identifiers datadf d)
    | None => mret datadf
    end;
  make_plots log10_pos interpolate datadf (path_join (outdir args) (prefix args)) args;;
  emit (EvLogInfo "Succesfully processed all input.").

End Tail.
(** ** Sample inputs *)

Module Sample.

Definition nl : str := [10%N].

(** one line of a tab-separated file, with its line end *)
Definition tsv_line (a b : str) : str := a ++ PyStr.tab :: b ++ nl.

(** Scenario B: one mapping row *)
Definition mapping : list str :=
  [tsv_line "NAME" "RUN_ID"; tsv_line "SampleX" "R1"].

(** Scenario C: a header in the wrong order *)
Definition mapping_bad_header : list str :=
  [tsv_line "ID" "NAME"; tsv_line "SampleX" "R1"].

(** a data row with one field only *)
Definition mapping_short_row : list str :=
  [tsv_line "name" "run_id"; tsv_line "SampleX" "R1"; "SampleY" ++ nl].

(** the run R1 named twice, with a blank line in between *)
Definition mapping_duplicate : list str :=
  [tsv_line "Name" "Run_ID"; tsv_line "Old" "R1"; nl; tsv_line "SampleY" "R2";
   tsv_line "New" "R1"].

(** a first line with a tab after its last field, and one that starts
    with a space, each over one row *)
Definition header_trailing_tab : str := "NAME" ++ PyStr.tab :: "RUN_ID" ++ [PyStr.tab].

Definition header_leading_space : str := " NAME" ++ PyStr.tab :: "RUN_ID".

Definition mapping_trailing_tab : list str :=
  [header_trailing_tab ++ nl; tsv_line "SampleX" "R1"].

Definition mapping_leading_space : list str :=
  [header_leading_space ++ nl; tsv_line "SampleX" "R1"].

(** a row of two spaces, between the header and a row *)
Definition row_blank : str := "  ".

Definition mapping_blank_row : list str :=
  [tsv_line "NAME" "RUN_ID"; row_blank ++ nl; tsv_line "SampleX" "R1"].

(** a row that names no run after its tab *)
Definition row_empty_run : str := "SampleX" ++ [PyStr.tab].

Definition mapping_empty_run : list str :=
  [tsv_line "NAME" "RUN_ID"; row_empty_run ++ nl].

(** three reads of two runs, from an alignment *)
Definition table : DataFrame :=
  [("lengths", [CInt 100; CInt 0; CInt 2000]);
   ("quals", [CFloat (Fin (21 # 2)); CFloat (Fin 9); CFloat (Fin 12)]);
   ("runIDs", [CStr "R1"; CStr "R2"; CStr "R1"]);
   ("dataset", [CStr "A"; CStr "A"; CStr "B"]);
   ("percentIdentity", [CFloat (Fin 90); CFloat (Fin 80); CFloat (Fin 95)])].

Definition fs (p : str) : option (result (list str)) :=
  if str_eqb p "map.tsv" then Some (Ok mapping) else None.

Definition get_input (source : str) (files : list str) (nthreads : Z)
    (rtype : str) (dnames : option (list str)) (combine : str)
    : DataFrame := table.

Definition check_valid_format (f : str) : str := f.

(** a stand-in for [str.upper]: the case mapping of the characters below
    U+0100, of the dotless i and of the long s; other characters are left
    as they are *)
Definition upper_char (c : N) : str :=
  (if (0x61 <=? c) && (c <=? 0x7A) then [c - 32]
   else if c =? 0xB5 then [0x39C]
   else if c =? 0xDF then [0x53; 0x53]
   else if (0xE0 <=? c) && (c <=? 0xFE) && negb (c =? 0xF7) then [c - 32]
   else if c =? 0xFF then [0x178]
   else if c =? 0x131 then [0x49]
   else if c =? 0x17F then [0x53]
   else [c])%N.

Definition upper (s : str) : str := s ≫= upper_char.

(** a stand-in for the logarithm, enough to run the pipeline *)
Definition log10_pos (q : Q) : Q := q.

Fixpoint insert_Q (x : Q) (l : list Q) : list Q :=
  match l with
  | [] => [x]
  | y :: l' => if Qle_bool x y then x :: l else y :: insert_Q x l'
  end.

(** a stand-in for numpy's interpolation: between the two closest ranks of
    the sorted values, in exact arithmetic; NaN when a value is not finite *)
Definition interpolate (col : column) (q : Q) : float64 :=
  match mapM (fun c => match cell_to_float c with
                       | Ok (Fin x) => Some x
                       | _ => None
                       end) col with
  | Some qs =>
      let sorted := foldr insert_Q [] qs in
      let rank := (inject_Z (Z.of_nat (length qs) - 1) * q / 100)%Q in
      let lower := nth (Z.to_nat (Qfloor rank)) sorted 0%Q in
      let higher := nth (Z.to_nat (Qceiling rank)) sorted 0%Q in
      Fin (lower + (higher - lower) * (rank - inject_Z (Qfloor rank)))%Q
  | None => NaN
  end.

(** [--bam a.bam b.bam --names A B --raw --split_runs map.tsv -o out] *)
Definition cmdline : Args str :=
  mkArgs 4%Z "out" [] false true "1D" (Some "map.tsv") "png"
         (Some ["A"; "B"]) "violin" None None None (Some ["a.bam"; "b.bam"]).

(** the same with one name for two files *)
Definition cmdline_one_name : Args str :=
  mkArgs 4%Z "out" [] false true "1D" (Some "map.tsv") "png"
         (Some ["A"]) "violin" None None None (Some ["a.bam"; "b.bam"]).

(** one name for two files, and a mapping file that is not there *)
Definition cmdline_missing_map : Args str :=
  mkArgs 4%Z "out" [] false true "1D" (Some "missing.tsv") "png"
         (Some ["A"]) "violin" None None None (Some ["a.bam"; "b.bam"]).

(** [--fastq reads.fastq], nothing else *)
Definition cmdline_fastq : Args str :=
  mkArgs 4%Z "." [] false false "1D" None "png"
         None "box" None (Some ["reads.fastq"]) None None.

(** the namespaces after parsing *)
Definition args_bam : Args file :=
  with_split_runs cmdline (Some (mkFile "map.tsv" (Ok mapping))).

Definition args_fastq : Args file := with_split_runs cmdline_fastq None.

End Sample.

(** ** Further vocabulary for the statements *)

(** the output format, path and title that a plot request carries *)
Definition request_options (e : event) : option (str * str * option str) :=
  match e with
  | EvBarplot _ f p t => Some (f, p, t)
  | EvViolinOrBox _ _ f p _ _ t => Some (f, p, t)
  | _ => None
  end.

(** the violin flag of a distribution request *)
Definition request_style (e : event) : option bool :=
  match e with
  | EvViolinOrBox _ _ _ _ v _ _ => Some v
  | _ => None
  end.

Definition is_log_error (e : event) : bool :=
  match e with
  | EvLogError _ => true
  | _ => false
  end.

Definition is_log_info (e : event) : bool :=
  match e with
  | EvLogInfo _ => true
  | _ => false
  end.

(** the metrics of the requests that are always made, in order *)
Definition base_metrics : list (option str) :=
  [None; Some "lengths"; Some "log length"; Some "quals"].

Section Body.

Variable get_input :
  str -> list str -> Z -> str -> option (list str) -> str -> DataFrame.
Variable check_valid_format : str -> str.
Variable upper : str -> str.
Variable log10_pos : Q -> Q.
Variable interpolate : column -> Q -> float64.

(** the body of the [try] block of [main], for the parsed arguments *)
Definition pipeline (args : Args file) : M unit :=
  emit (EvMakeOutputDir (outdir args));;
  emit (EvInitLogs "NanoComp");;
  let args := with_format args (check_valid_format (format args)) in
  let sources := [fastq args; bam args; summary args] in
  let sourcename := ["fastq"; "bam"; "summary"] in
  split_dict ←
    match split_runs args with
    | Some f =>
        emit (EvReadlines (fpath f));;
        d ← lift (validate_split_runs_file upper (freadlines f));
        mret (Some d)
    | None => mret None
    end;
  source ← lift (getitem (truthy_names sourcename sources) 0);
  files ← lift (getitem (truthy_lists sources) 0);
  emit (EvGetInput source files (threads args) (readtype args) (names args)
          "track");;
  let datadf :=
    get_input source files (threads args) (readtype args) (names args) "track" in
  (if raw args
   then emit (EvToCsv raw_export_name PyStr.tab false "gzip" datadf)
   else mret tt);;
  after_export log10_pos interpolate args split_dict datadf.

End Body.

(** the events of a run before any plot: directory, logs, mapping file,
    ingestion, raw export *)
Definition is_setup (e : event) : bool :=
  match e with
  | EvOpenRead _ | EvMakeOutputDir _ | EvInitLogs _ | EvReadlines _
  | EvGetInput _ _ _ _ _ _ | EvToCsv _ _ _ _ _ => true
  | _ => false
  end.

Definition closing_log : event := EvLogInfo "Succesfully processed all input.".

(** the shape of a run, or of a part of one: events before any plot, with
    the exports [ex] among them, then plot requests that all carry the
    options [opts], then the closing log line when the part ends well *)
Definition run_shape (opts : str * str * option str)
    (ex : list (str * DataFrame)) (m : M unit) : Prop :=
  exists setup plots,
    m.1 = setup ++ plots ++ match m.2 with Ok _ => [closing_log] | _ => [] end
    /\ Forall (fun e => is_setup e = true) setup
    /\ exports setup = ex
    /\ Forall (fun e => is_plot_request e = true /\ request_options e = Some opts)
         plots.

(** ** Cells of a mapping file as they are written *)

(** no tab in the cell, and no line feed or carriage return, at which the
    text of a file is cut into the lines that [readlines()] gives *)
Fixpoint no_break (s : str) : bool :=
  match s with
  | [] => true
  | c :: s' => negb (c =? PyStr.tab)%N && negb (c =? 10)%N && negb (c =? 13)%N
               && no_break s'
  end.

Definition first_ok (s : str) : bool :=
  match s with
  | [] => false
  | c :: _ => negb (PyStr.isspace c)
  end.

Fixpoint last_ok (s : str) : bool :=
  match s with
  | [] => false
  | [c] => negb (PyStr.isspace c)
  | _ :: s' => last_ok s'
  end.

(** a cell that survives writing, stripping and splitting: not empty, no
    tab and no line break in it, no white space at either end *)
Definition clean_cell (s : str) : Prop :=
  no_break s = true /\ first_ok s = true /\ last_ok s = true.

Fixpoint all_space (s : str) : bool :=
  match s with
  | [] => true
  | c :: s' => PyStr.isspace c && all_space s'
  end.

(** the lines of the mapping file written from rows of a name and a run *)
Definition mapping_file (rows : list (str * str)) : list str :=
  Sample.tsv_line "NAME" "RUN_ID" :: ((fun nr => Sample.tsv_line nr.1 nr.2) <$> rows).

(** * Equality of strings *)

Lemma str_eqb_eq (a b : str) : str_eqb a b = true <-> a = b.
Proof.
  revert b. induction a as [|x a IH]; intros [|y b]; simpl;
    try (split; [discriminate|discriminate]); [split; reflexivity|].
  rewrite andb_true_iff, N.eqb_eq, IH. split.
  - intros [-> ->]. reflexivity.
  - intros [= -> ->]. auto.
Qed.

Lemma str_eqb_refl (a : str) : str_eqb a a = true.
Proof. apply str_eqb_eq. reflexivity. Qed.

Lemma str_eqb_neq (a b : str) : str_eqb a b = false <-> a <> b.
Proof.
  rewrite <- str_eqb_eq. destruct (str_eqb a b); split; congruence.
Qed.

Lemma str_eqb_sym (a b : str) : str_eqb a b = str_eqb b a.
Proof.
  destruct (str_eqb b a) eqn:E.
  - apply str_eqb_eq in E. subst. apply str_eqb_refl.
  - apply str_eqb_neq in E. apply str_eqb_neq. congruence.
Qed.

(** * Properties of the mapping-file parser *)

Lemma split_nonempty (sep : N) (s : str) : PyStr.split sep s <> [].
Proof.
  destruct s as [|c s]; simpl; [discriminate|].
  destruct (c =? sep)%N; [discriminate|].
  destruct (PyStr.split sep s); discriminate.
Qed.

Lemma truthy_false (c : str) : PyStr.truthy c = false <-> c = [].
Proof. destruct c; simpl; split; congruence. Qed.

Lemma truthy_true (c : str) : PyStr.truthy c = true <-> c <> [].
Proof. destruct c; simpl; split; congruence. Qed.

Lemma getitem_short {A} (l : list A) (i : nat) :
  length l <= i -> getitem l i = Raise IndexError.
Proof.
  intros H. unfold getitem. rewrite (lookup_ge_None_2 l i); [reflexivity|lia].
Qed.

Lemma getitem_long {A} (l : list A) (i : nat) :
  i < length l -> exists a, l !! i = Some a /\ getitem l i = Ok a.
Proof.
  intros H. destruct (lookup_lt_is_Some_2 l i H) as [a Ha].
  exists a. unfold getitem. rewrite Ha. auto.
Qed.

(** a row that is too short stops the comprehension with [IndexError] *)
Lemma dict_comprehension_short (data : list str) (acc : pydict) (c : str) :
  c ∈ data -> c <> [] -> length (fields c) < 2 ->
  dict_comprehension data acc = Raise IndexError.
Proof.
  revert acc. induction data as [|c' data IH]; intros acc Hin Hne Hlen.
  - inversion Hin.
  - simpl. destruct (PyStr.truthy c') eqn:Ht.
    + destruct (decide (length (fields c') < 2)) as [Hs|Hs].
      * unfold fields in Hs.
        rewrite (getitem_short (PyStr.split PyStr.tab c') 1) by lia. reflexivity.
      * unfold fields in Hs.
        destruct (getitem_long (PyStr.split PyStr.tab c') 1) as (k & _ & ->); [lia|].
        destruct (getitem_long (PyStr.split PyStr.tab c') 0) as (v & _ & ->); [lia|].
        simpl. apply IH; auto.
        apply elem_of_cons in Hin as [->|Hin]; [contradiction|assumption].
    + apply truthy_false in Ht. subst c'.
      apply IH; auto.
      apply elem_of_cons in Hin as [->|Hin]; [contradiction|assumption].
Qed.

(** rows with two fields or more always give a dictionary *)
Lemma dict_comprehension_ok (data : list str) (acc : pydict) :
  (forall c, c ∈ data -> c <> [] -> 2 <= length (fields c)) ->
  exists d, dict_comprehension data acc = Ok d.
Proof.
  revert acc. induction data as [|c data IH]; intros acc Hall.
  - exists acc. reflexivity.
  - simpl. destruct (PyStr.truthy c) eqn:Ht.
    + apply truthy_true in Ht.
      assert (2 <= length (fields c)) as Hl by (apply Hall; [left|assumption]).
      unfold fields in Hl.
      destruct (getitem_long (PyStr.split PyStr.tab c) 1) as (k & _ & ->); [lia|].
      destruct (getitem_long (PyStr.split PyStr.tab c) 0) as (v & _ & ->); [lia|].
      simpl. apply IH. intros c' Hin. apply Hall. right; assumption.
    + apply IH. intros c' Hin. apply Hall. right; assumption.
Qed.

Lemma dict_comprehension_outcome (data : list str) (acc : pydict) :
  (exists d, dict_comprehension data acc = Ok d)
  \/ dict_comprehension data acc = Raise IndexError.
Proof.
  revert acc. induction data as [|c data IH]; intros acc; simpl; [eauto|].
  destruct (PyStr.truthy c); [|apply IH].
  unfold getitem.
  destruct (PyStr.split PyStr.tab c !! 1); simpl; [|auto].
  destruct (PyStr.split PyStr.tab c !! 0); simpl; [apply IH|auto].
Qed.

Section ParserFacts.

Variable upper : str -> str.

Lemma validate_cons (first : str) (rest : list str) :
  validate_split_runs_file upper (Ok (first :: rest)) =
  if decide (header_ok upper (PyStr.strip first))
  then try_except_IndexError
         (dict_comprehension (PyStr.strip <$> rest) []) (SysExit msg_format)
  else SysExit msg_header.
Proof.
  unfold validate_split_runs_file, header_ok, fields. simpl.
  destruct (decide _); reflexivity.
Qed.

End ParserFacts.

(** The header is not compared as the first line stands.  A first line
    NAME, tab, RUN_ID, tab has three fields, and a first line that starts
    with a space has a first field that is not NAME, in capitals or not;
    yet the parser accepts both files and gives the dictionary of their
    row: it strips the white space at both ends of the line (tabs and the
    line end included) before it looks at the fields. *)
Lemma header_compared_after_strip :
  Sample.mapping_trailing_tab !! 0 = Some (Sample.header_trailing_tab ++ Sample.nl)
  /\ Sample.mapping_leading_space !! 0
     = Some (Sample.header_leading_space ++ Sample.nl)
  /\ Sample.upper <$> fields Sample.header_trailing_tab = ["NAME"; "RUN_ID"; []]
  /\ Sample.upper <$> fields Sample.header_trailing_tab <> header_fields
  /\ Sample.upper <$> fields Sample.header_leading_space = [" NAME"; "RUN_ID"]
  /\ Sample.upper <$> fields Sample.header_leading_space <> header_fields
  /\ validate_split_runs_file Sample.upper (Ok Sample.mapping_trailing_tab)
     = Ok [("R1", "SampleX")]
  /\ validate_split_runs_file Sample.upper (Ok Sample.mapping_leading_space)
     = Ok [("R1", "SampleX")].
Proof.
  repeat split; try (vm_compute; reflexivity); vm_compute; discriminate.
Qed.

(** C6 (as the code has it). A mapping file whose first line, once the
    white space at its two ends is stripped and the line put in capitals,
    does not split on tab into exactly NAME and RUN_ID, ends the run with
    the message about the mandatory header; the lines after it are not
    looked at, so no dictionary comes back whatever they hold.  A first
    line that does split so is never refused with that message, whatever
    white space stood at its ends. *)
Theorem header_mismatch_is_format_error (upper : str -> str) (first : str)
    (rest : list str) :
  (~ header_ok upper (PyStr.strip first) ->
   validate_split_runs_file upper (Ok (first :: rest)) = SysExit msg_header
   /\ is_FormatError (validate_split_runs_file upper (Ok (first :: rest)))
   /\ (forall rest', validate_split_runs_file upper (Ok (first :: rest'))
                     = validate_split_runs_file upper (Ok (first :: rest)))
   /\ forall d, validate_split_runs_file upper (Ok (first :: rest)) <> Ok d)
  /\ (header_ok upper (PyStr.strip first) ->
      validate_split_runs_file upper (Ok (first :: rest)) <> SysExit msg_header).
Proof.
  split.
  - intros Hbad.
    assert (forall r, validate_split_runs_file upper (Ok (first :: r))
                      = SysExit msg_header) as E.
    { intros r. rewrite validate_cons.
      destruct (decide _); [contradiction|reflexivity]. }
    repeat split.
    + apply E.
    + left. apply E.
    + intros rest'. rewrite !E. reflexivity.
    + intros d. rewrite E. discriminate.
  - intros Hok. rewrite validate_cons.
    destruct (decide _); [|contradiction].
    destruct (dict_comprehension_outcome (PyStr.strip <$> rest) [])
      as [[d ->]| ->]; simpl; discriminate.
Qed.

Lemma header_mismatch_witness :
  validate_split_runs_file Sample.upper (Ok Sample.mapping_bad_header)
  = SysExit msg_header
  /\ is_FormatError
       (validate_split_runs_file Sample.upper (Ok Sample.mapping_bad_header))
  /\ (forall rest',
        validate_split_runs_file Sample.upper
          (Ok (Sample.tsv_line "ID" "NAME" :: rest'))
        = validate_split_runs_file Sample.upper (Ok Sample.mapping_bad_header))
  /\ forall d, validate_split_runs_file Sample.upper (Ok Sample.mapping_bad_header)
               <> Ok d.
Proof.
  destruct (header_mismatch_is_format_error Sample.upper
              (Sample.tsv_line "ID" "NAME") [Sample.tsv_line "SampleX" "R1"])
    as [H _].
  apply H. vm_compute. discriminate.
Defined.

(** The fields of a row are not counted as the row stands.  A row of two
    spaces is not empty and has one field, yet the parser skips it and
    accepts the file; a row SampleX, tab has two fields, yet the parser
    refuses the file with the message about the format: it strips the
    white space at both ends of the row, tabs included, before it tests
    whether the row is empty and before it splits it. *)
Lemma rows_counted_after_strip :
  Sample.mapping_blank_row !! 1 = Some (Sample.row_blank ++ Sample.nl)
  /\ Sample.mapping_empty_run !! 1 = Some (Sample.row_empty_run ++ Sample.nl)
  /\ Sample.row_blank <> [] /\ length (fields Sample.row_blank) = 1
  /\ validate_split_runs_file Sample.upper (Ok Sample.mapping_blank_row)
     = Ok [("R1", "SampleX")]
  /\ length (fields Sample.row_empty_run) = 2
  /\ validate_split_runs_file Sample.upper (Ok Sample.mapping_empty_run)
     = SysExit msg_format.
Proof.
  repeat split; try (vm_compute; reflexivity). discriminate.
Qed.

(** C7 (as the code has it). Rows are read with the white space at their
    two ends stripped.  A mapping file with a row that is then not empty
    and has fewer than two tab-separated fields ends the run with a format
    error and gives no dictionary: the message about the file format when
    the header is right, the one about the header otherwise.  When the
    header is right and every row that is not empty once stripped has two
    fields or more, the file is accepted and a dictionary comes back. *)
Theorem short_row_is_format_error (upper : str -> str) (lines : list str) :
  (forall c, c ∈ data_rows lines -> c <> [] -> length (fields c) < 2 ->
     is_FormatError (validate_split_runs_file upper (Ok lines))
     /\ (forall d, validate_split_runs_file upper (Ok lines) <> Ok d)
     /\ (forall h, header_line lines = Some h -> header_ok upper h ->
           validate_split_runs_file upper (Ok lines) = SysExit msg_format))
  /\ (forall h, header_line lines = Some h -> header_ok upper h ->
      (forall c, c ∈ data_rows lines -> c <> [] -> 2 <= length (fields c)) ->
      exists d, validate_split_runs_file upper (Ok lines) = Ok d).
Proof.
  destruct lines as [|first rest].
  - split.
    + intros c Hin. inversion Hin.
    + intros h Hh. discriminate Hh.
  - assert (data_rows (first :: rest) = PyStr.strip <$> rest) as -> by reflexivity.
    assert (header_line (first :: rest) = Some (PyStr.strip first)) as ->
      by reflexivity.
    rewrite validate_cons.
    split.
    + intros c Hin Hne Hlen.
      rewrite (dict_comprehension_short _ [] c Hin Hne Hlen). simpl.
      destruct (decide (header_ok upper (PyStr.strip first))) as [Hok|Hbad].
      * split; [right; reflexivity|]. split; [discriminate|]. reflexivity.
      * split; [left; reflexivity|]. split; [discriminate|].
        intros h [= <-] Hh. contradiction.
    + intros h [= <-] Hh Hall.
      destruct (decide (header_ok upper (PyStr.strip first))) as [Hok|Hbad];
        [|contradiction].
      destruct (dict_comprehension_ok (PyStr.strip <$> rest) [] Hall) as [d ->].
      exists d. reflexivity.
Qed.

Lemma short_row_witness :
  validate_split_runs_file Sample.upper (Ok Sample.mapping_short_row)
  = SysExit msg_format
  /\ exists d, validate_split_runs_file Sample.upper (Ok Sample.mapping_duplicate)
               = Ok d.
Proof.
  split.
  - destruct (short_row_is_format_error Sample.upper Sample.mapping_short_row)
      as [Hshort _].
    destruct (Hshort "SampleY") as (_ & _ & Hmsg).
    + vm_compute. right. left.
    + discriminate.
    + vm_compute. lia.
    + apply (Hmsg (PyStr.strip (Sample.tsv_line "name" "run_id")));
        vm_compute; reflexivity.
  - destruct (short_row_is_format_error Sample.upper Sample.mapping_duplicate)
      as [_ Hlong].
    apply (Hlong (PyStr.strip (Sample.tsv_line "Name" "Run_ID")));
      [vm_compute; reflexivity ..|].
    intros c Hin Hne.
    vm_compute in Hin.
    repeat (apply elem_of_cons in Hin as [->|Hin]; [try (vm_compute; lia); try
        contradiction|]).
    inversion Hin.
Defined.

(** * Properties of dictionaries *)

Section Dict.

Implicit Types (d acc : pydict) (k v rid name : str).

Lemma dict_get_set_eq k v d : dict_get k (dict_set k v d) = Some v.
Proof.
  induction d as [|[k' v'] d IH]; simpl.
  - rewrite str_eqb_refl. reflexivity.
  - destruct (str_eqb k' k) eqn:E; simpl; rewrite E; auto.
Qed.

Lemma dict_get_set_ne k k' v d :
  k <> k' -> dict_get k' (dict_set k v d) = dict_get k' d.
Proof.
  intros Hne. induction d as [|[k0 v0] d IH]; simpl.
  - apply str_eqb_neq in Hne. rewrite Hne. reflexivity.
  - destruct (str_eqb k0 k) eqn:E; simpl.
    + apply str_eqb_eq in E. subst k0.
      apply str_eqb_neq in Hne. rewrite Hne. reflexivity.
    + destruct (str_eqb k0 k'); auto.
Qed.

Lemma dict_set_keys_old k v d : k ∈ d.*1 -> (dict_set k v d).*1 = d.*1.
Proof.
  induction d as [|[k' v'] d IH]; simpl; intros Hin.
  - inversion Hin.
  - destruct (str_eqb k' k) eqn:E; simpl; [reflexivity|].
    apply str_eqb_neq in E. f_equal. apply IH.
    apply elem_of_cons in Hin as [->|Hin]; [contradiction|assumption].
Qed.

Lemma dict_set_keys_new k v d : k ∉ d.*1 -> (dict_set k v d).*1 = d.*1 ++ [k].
Proof.
  induction d as [|[k' v'] d IH]; simpl; intros Hin.
  - reflexivity.
  - apply not_elem_of_cons in Hin as [Hne Hin].
    destruct (str_eqb k' k) eqn:E; simpl.
    + apply str_eqb_eq in E. congruence.
    + f_equal. apply IH. assumption.
Qed.

(** keys stay pairwise distinct *)
Lemma dict_set_NoDup k v d : NoDup d.*1 -> NoDup (dict_set k v d).*1.
Proof.
  intros Hd. destruct (decide (k ∈ d.*1)) as [H|H].
  - rewrite dict_set_keys_old; assumption.
  - rewrite dict_set_keys_new by assumption.
    apply NoDup_app. split; [assumption|]. split.
    + intros x Hx Hx'. apply list_elem_of_singleton in Hx'. subst x. contradiction.
    + apply NoDup_singleton.
Qed.

Lemma dict_get_elem_of k v d :
  NoDup d.*1 -> (k, v) ∈ d <-> dict_get k d = Some v.
Proof.
  induction d as [|[k' v'] d IH]; simpl; intros Hd.
  - split; [intros H; inversion H|discriminate].
  - apply NoDup_cons in Hd as [Hk Hd].
    destruct (str_eqb k' k) eqn:E.
    + apply str_eqb_eq in E. subst k'. split.
      * intros H. apply elem_of_cons in H as [[= ->]|H]; [reflexivity|].
        exfalso. apply Hk. apply list_elem_of_fmap. exists (k, v). auto.
      * intros [= ->]. left.
    + apply str_eqb_neq in E. rewrite <- IH by assumption. split.
      * intros H. apply elem_of_cons in H as [[= -> ->]|H]; [contradiction|assumption].
      * intros H. right. assumption.
Qed.

Lemma dict_comprehension_NoDup data acc d :
  NoDup acc.*1 -> dict_comprehension data acc = Ok d -> NoDup d.*1.
Proof.
  revert acc. induction data as [|c data IH]; simpl; intros acc Hacc Hd.
  - congruence.
  - destruct (PyStr.truthy c); [|eauto].
    destruct (getitem (PyStr.split PyStr.tab c) 1) as [k| |]; try discriminate.
    destruct (getitem (PyStr.split PyStr.tab c) 0) as [v| |]; try discriminate.
    simpl in Hd. eapply IH; [|eassumption]. apply dict_set_NoDup. assumption.
Qed.

Lemma getitem_Ok {A} (l : list A) (i : nat) (a : A) :
  getitem l i = Ok a <-> l !! i = Some a.
Proof.
  unfold getitem. destruct (l !! i); split; congruence.
Qed.

(** rows that do not name [rid] leave its entry alone *)
Lemma dict_comprehension_untouched data acc d rid :
  dict_comprehension data acc = Ok d ->
  (forall c name, c ∈ data -> ~ names_run c rid name) ->
  dict_get rid d = dict_get rid acc.
Proof.
  revert acc. induction data as [|c data IH]; simpl; intros acc Hd Hno.
  - congruence.
  - assert (forall c' name, c' ∈ data -> ~ names_run c' rid name) as Hno'
      by (intros c' name Hin; apply Hno; right; assumption).
    destruct (PyStr.truthy c) eqn:Ht; [|eauto].
    destruct (getitem (PyStr.split PyStr.tab c) 1) as [k| |] eqn:Ek; try discriminate.
    destruct (getitem (PyStr.split PyStr.tab c) 0) as [v| |] eqn:Ev; try discriminate.
    simpl in Hd. rewrite (IH _ Hd Hno').
    apply dict_get_set_ne. intros ->.
    apply (Hno c v); [left|].
    apply truthy_true in Ht. apply getitem_Ok in Ek, Ev.
    split; [assumption|]. split; assumption.
Qed.

(** the last row that names a run decides its entry *)
Lemma dict_comprehension_last pre c post acc d rid name :
  dict_comprehension (pre ++ c :: post) acc = Ok d ->
  names_run c rid name ->
  (forall c' name', c' ∈ post -> ~ names_run c' rid name') ->
  dict_get rid d = Some name.
Proof.
  revert acc. induction pre as [|c0 pre IH]; simpl; intros acc Hd Hc Hno.
  - destruct Hc as (Hne & Hk & Hv).
    apply truthy_true in Hne. rewrite Hne in Hd.
    apply getitem_Ok in Hk, Hv. unfold fields in Hk, Hv.
    rewrite Hk, Hv in Hd. simpl in Hd.
    rewrite (dict_comprehension_untouched _ _ _ _ Hd Hno).
    apply dict_get_set_eq.
  - destruct (PyStr.truthy c0); [|eauto].
    destruct (getitem (PyStr.split PyStr.tab c0) 1) as [k| |]; try discriminate.
    destruct (getitem (PyStr.split PyStr.tab c0) 0) as [v| |]; try discriminate.
    simpl in Hd. eauto.
Qed.

Lemma validate_Ok_inv (upper : str -> str) lines d :
  validate_split_runs_file upper (Ok lines) = Ok d ->
  dict_comprehension (data_rows lines) [] = Ok d.
Proof.
  destruct lines as [|first rest]; [discriminate|].
  rewrite validate_cons.
  assert (data_rows (first :: rest) = PyStr.strip <$> rest) as -> by reflexivity.
  destruct (decide _); [|discriminate].
  destruct (dict_comprehension _ _) as [d'| |[]]; simpl; congruence.
Qed.

End Dict.

(** * Properties of tables *)

Section Table.

Implicit Types (df : DataFrame) (col runs ds : column) (n m : str).

Lemma df_col_setitem n m col df :
  df_col n (df_setitem m col df) = if str_eqb m n then Some col else df_col n df.
Proof.
  induction df as [|[n0 c0] df IH]; simpl.
  - destruct (str_eqb m n); reflexivity.
  - destruct (str_eqb n0 m) eqn:E; simpl.
    + apply str_eqb_eq in E. subst n0. destruct (str_eqb m n); reflexivity.
    + rewrite IH. destruct (str_eqb n0 n) eqn:E'; [|reflexivity].
      apply str_eqb_eq in E'. subst n0. rewrite str_eqb_sym, E. reflexivity.
Qed.

Lemma df_col_setitem_eq n col df : df_col n (df_setitem n col df) = Some col.
Proof. rewrite df_col_setitem, str_eqb_refl. reflexivity. Qed.

Lemma df_col_setitem_ne n m col df :
  m <> n -> df_col n (df_setitem m col df) = df_col n df.
Proof.
  intros H. rewrite df_col_setitem. apply str_eqb_neq in H. rewrite H. reflexivity.
Qed.

Lemma df_col_length n col df :
  df_rect df -> df_col n df = Some col -> length col = df_nrows df.
Proof.
  unfold df_rect. generalize (df_nrows df) as k. intros k Hr.
  induction Hr as [|[n0 c0] df H0 Hr IH]; simpl; [discriminate|].
  destruct (str_eqb n0 n); [|assumption].
  intros [= <-]. assumption.
Qed.

Lemma df_nrows_setitem m col df :
  length col = df_nrows df -> df_nrows (df_setitem m col df) = df_nrows df.
Proof.
  destruct df as [|[n0 c0] df]; simpl; [auto|].
  destruct (str_eqb n0 m); simpl; auto.
Qed.

Lemma df_rect_setitem m col df :
  df_rect df -> length col = df_nrows df -> df_rect (df_setitem m col df).
Proof.
  intros Hr Hl. unfold df_rect. rewrite df_nrows_setitem by assumption.
  unfold df_rect in Hr. revert Hr Hl. generalize (df_nrows df) as k. intros k Hr Hl.
  induction Hr as [|[n0 c0] df H0 Hr IH]; simpl.
  - repeat constructor. assumption.
  - destruct (str_eqb n0 m); constructor; auto.
Qed.

Lemma df_columns_setitem m col df :
  m ∈ df_columns df -> df_columns (df_setitem m col df) = df_columns df.
Proof.
  unfold df_columns. induction df as [|[n0 c0] df IH]; simpl; intros Hin.
  - inversion Hin.
  - destruct (str_eqb n0 m) eqn:E; simpl; [reflexivity|].
    apply str_eqb_neq in E. f_equal. apply IH.
    apply elem_of_cons in Hin as [->|Hin]; [contradiction|assumption].
Qed.

Lemma df_col_Some_columns n col df : df_col n df = Some col -> n ∈ df_columns df.
Proof.
  unfold df_columns. induction df as [|[n0 c0] df IH]; simpl; [discriminate|].
  destruct (str_eqb n0 n) eqn:E.
  - apply str_eqb_eq in E. subst n0. intros _. left.
  - intros H. right. auto.
Qed.

Lemma length_series_eq_str col s : length (series_eq_str col s) = length col.
Proof. unfold series_eq_str. apply length_fmap. Qed.

Lemma loc_set_mask runs ds rid name :
  zip_with (fun (b : bool) c => if b then CStr name else c) (series_eq_str runs rid) ds
  = zip_with (overwrite rid name) runs ds.
Proof.
  unfold series_eq_str. revert ds.
  induction runs as [|r runs IH]; intros [|c ds]; simpl; try reflexivity.
  rewrite IH. f_equal. destruct r; simpl; try reflexivity.
Qed.

Lemma zip_with_twice {A B} (f g : A -> B -> B) (xs : list A) (ys : list B) :
  zip_with g xs (zip_with f xs ys) = zip_with (fun x y => g x (f x y)) xs ys.
Proof.
  revert ys. induction xs as [|x xs IH]; intros [|y ys]; simpl; try reflexivity.
  rewrite IH. reflexivity.
Qed.

Lemma relabel_cons rid name d run label :
  relabel ((rid, name) :: d) run label = relabel d run (overwrite rid name run label).
Proof. unfold relabel, overwrite. simpl. destruct run; reflexivity. Qed.

(** one [loc] assignment on a table that has both columns *)
Lemma loc_set_dataset df runs ds rid name :
  df_rect df ->
  df_col "runIDs" df = Some runs ->
  df_col "dataset" df = Some ds ->
  let df' := loc_set (series_eq_str runs rid) "dataset" (CStr name) df in
  df_rect df' /\ df_nrows df' = df_nrows df
  /\ df_columns df' = df_columns df
  /\ (forall n, n <> "dataset" -> df_col n df' = df_col n df)
  /\ df_col "dataset" df' = Some (zip_with (overwrite rid name) runs ds).
Proof.
  intros Hr Hruns Hds. unfold loc_set. rewrite Hds, loc_set_mask. simpl.
  pose proof (df_col_length _ _ _ Hr Hruns) as Lr.
  pose proof (df_col_length _ _ _ Hr Hds) as Ld.
  assert (length (zip_with (overwrite rid name) runs ds) = df_nrows df) as Lz.
  { rewrite length_zip_with. lia. }
  split; [apply df_rect_setitem; assumption|].
  split; [apply df_nrows_setitem; assumption|].
  split; [apply df_columns_setitem; eapply df_col_Some_columns; eassumption|].
  split; [intros n Hn; apply df_col_setitem_ne; congruence|].
  apply df_col_setitem_eq.
Qed.

(** one [loc] assignment on a table without a [dataset] column: the column
    is created, the others stay *)
Lemma loc_set_new_column df runs rid name :
  df_rect df ->
  df_col "runIDs" df = Some runs ->
  df_col "dataset" df = None ->
  let df' := loc_set (series_eq_str runs rid) "dataset" (CStr name) df in
  df_rect df' /\ df_nrows df' = df_nrows df
  /\ (forall n, n <> "dataset" -> df_col n df' = df_col n df)
  /\ exists ds, df_col "dataset" df' = Some ds.
Proof.
  intros Hr Hruns Hds. unfold loc_set. rewrite Hds. simpl.
  pose proof (df_col_length _ _ _ Hr Hruns) as Lr.
  match goal with |- context [df_setitem _ ?c df] =>
    assert (length c = df_nrows df) as Lz
      by (rewrite length_fmap, length_series_eq_str; assumption) end.
  split; [apply df_rect_setitem; assumption|].
  split; [apply df_nrows_setitem; assumption|].
  split; [intros n Hn; apply df_col_setitem_ne; congruence|].
  eexists. apply df_col_setitem_eq.
Qed.

(** the remap step always ends well on a table with a [runIDs] column, keeps
    its shape, and touches no column but [dataset] *)
Lemma change_identifiers_frame d df runs :
  df_rect df ->
  df_col "runIDs" df = Some runs ->
  exists df', change_identifiers df d = Ok df'
    /\ df_rect df' /\ df_nrows df' = df_nrows df
    /\ forall n, n <> "dataset" -> df_col n df' = df_col n df.
Proof.
  revert df. induction d as [|[rid name] d IH]; intros df Hr Hruns; simpl.
  - exists df. auto.
  - unfold df_getitem. rewrite Hruns. simpl.
    set (df1 := loc_set (series_eq_str runs rid) "dataset" (CStr name) df).
    assert (df_rect df1 /\ df_nrows df1 = df_nrows df
            /\ forall n, n <> "dataset" -> df_col n df1 = df_col n df)
      as (Hr1 & Hn1 & Hf1).
    { destruct (df_col "dataset" df) as [ds|] eqn:Hds.
      - destruct (loc_set_dataset df runs ds rid name Hr Hruns Hds)
          as (? & ? & ? & ? & ?). auto.
      - destruct (loc_set_new_column df runs rid name Hr Hruns Hds)
          as (? & ? & ? & ?). auto. }
    destruct (IH df1 Hr1) as (df' & E & Hr' & Hn' & Hf').
    { rewrite Hf1 by discriminate. assumption. }
    exists df'. split; [exact E|]. split; [assumption|]. split; [congruence|].
    intros n Hn. rewrite Hf' by assumption. auto.
Qed.

(** the labels after the remap step, row by row *)
Lemma change_identifiers_dataset d df runs ds :
  df_rect df ->
  df_col "runIDs" df = Some runs ->
  df_col "dataset" df = Some ds ->
  exists df', change_identifiers df d = Ok df'
    /\ df_col "dataset" df' = Some (zip_with (relabel d) runs ds)
    /\ df_columns df' = df_columns df.
Proof.
  revert df ds. induction d as [|[rid name] d IH]; intros df ds Hr Hruns Hds; simpl.
  - exists df. split; [reflexivity|]. split; [|reflexivity].
    rewrite Hds. f_equal.
    pose proof (df_col_length _ _ _ Hr Hruns) as Lr.
    pose proof (df_col_length _ _ _ Hr Hds) as Ld.
    assert (length runs = length ds) as L by lia. clear -L.
    revert ds L. induction runs as [|r runs IH]; intros [|c ds] L; simpl in *;
      try reflexivity; try discriminate.
    f_equal. apply IH. lia.
  - unfold df_getitem. rewrite Hruns. simpl.
    destruct (loc_set_dataset df runs ds rid name Hr Hruns Hds)
      as (Hr1 & Hn1 & Hc1 & Hf1 & Hd1).
    edestruct IH as (df' & E & Hd' & Hc'); [exact Hr1| |exact Hd1|].
    { rewrite Hf1 by discriminate. exact Hruns. }
    exists df'. split; [exact E|]. split; [|congruence].
    rewrite Hd', zip_with_twice. f_equal.
Qed.

Lemma relabel_not_key d run label :
  (forall rid, rid ∈ d.*1 -> run <> CStr rid) -> relabel d run label = label.
Proof.
  revert label. induction d as [|[rid name] d IH]; intros label Hno; [reflexivity|].
  rewrite relabel_cons. rewrite IH.
  - unfold overwrite. destruct run as [| |t]; try reflexivity.
    destruct (str_eqb t rid) eqn:E; [|reflexivity].
    apply str_eqb_eq in E. subst t. exfalso. apply (Hno rid); [left|reflexivity].
  - intros rid' Hin. apply Hno. right. assumption.
Qed.

Lemma relabel_key d rid name label :
  NoDup d.*1 -> (rid, name) ∈ d -> relabel d (CStr rid) label = CStr name.
Proof.
  revert label. induction d as [|[rid0 name0] d IH]; intros label Hd Hin.
  - inversion Hin.
  - rewrite relabel_cons. simpl in Hd. apply NoDup_cons in Hd as [Hk Hd].
    apply elem_of_cons in Hin as [[= <- <-]|Hin].
    + rewrite relabel_not_key.
      * simpl. rewrite str_eqb_refl. reflexivity.
      * intros rid' Hin' [= ->]. contradiction.
    + apply IH; assumption.
Qed.

(** every label after the remap is the old one or a name of the dictionary *)
Lemma relabel_range d run label :
  relabel d run label = label \/ exists name, name ∈ d.*2 /\ relabel d run label
      = CStr name.
Proof.
  revert label. induction d as [|[rid name] d IH]; intros label; [left; reflexivity|].
  rewrite relabel_cons.
  destruct (IH (overwrite rid name run label)) as [E|(name' & Hin & E)].
  - rewrite E. unfold overwrite. destruct run as [| |t]; try (left; reflexivity).
    destruct (str_eqb t rid); [|left; reflexivity].
    right. exists name. split; [left|reflexivity].
  - right. exists name'. split; [right; assumption|assumption].
Qed.

Lemma df_cell_col n i df col : df_col n df = Some col -> df_cell n i df = col !! i.
Proof. unfold df_cell. intros ->. reflexivity. Qed.

End Table.

(** * The remap step *)

(** C2. On a table with its [runIDs] and [dataset] columns and a
    dictionary (keys pairwise distinct), the remap step ends well and,
    row by row: a row whose run is a key of the dictionary carries that
    key's name; a row whose run is no key keeps its label; so every label
    is one of the original labels or a name of the dictionary. *)
Theorem remap_labels (df : DataFrame) (d : pydict) (runs ds : column) :
  df_rect df -> NoDup d.*1 ->
  df_col "runIDs" df = Some runs -> df_col "dataset" df = Some ds ->
  exists df', change_identifiers df d = Ok df' /\
    forall i : nat,
      (forall rid name, (rid, name) ∈ d -> runs !! i = Some (CStr rid) ->
         df_cell "dataset" i df' = Some (CStr name))
      /\ ((forall rid, rid ∈ d.*1 -> runs !! i <> Some (CStr rid)) ->
          df_cell "dataset" i df' = ds !! i)
      /\ (forall c, df_cell "dataset" i df' = Some c ->
          c ∈ ds \/ exists name, name ∈ d.*2 /\ c = CStr name).
Proof.
  intros Hr Hd Hruns Hds.
  destruct (change_identifiers_dataset d df runs ds Hr Hruns Hds) as (df' & E &
      Hd' & _).
  exists df'. split; [exact E|]. intros i.
  rewrite (df_cell_col _ i _ _ Hd'), lookup_zip_with.
  pose proof (df_col_length _ _ _ Hr Hruns) as Lr.
  pose proof (df_col_length _ _ _ Hr Hds) as Ld.
  destruct (runs !! i) as [r|] eqn:Er; simpl.
  - destruct (ds !! i) as [c|] eqn:Ec; simpl.
    + split; [|split].
      * intros rid name Hin [= ->]. f_equal. apply relabel_key; assumption.
      * intros Hno. f_equal. apply relabel_not_key.
        intros rid Hin ->. apply (Hno rid Hin). reflexivity.
      * intros c' [= <-].
        destruct (relabel_range d r c) as [->|(name & Hin & ->)].
        -- left. apply list_elem_of_lookup. eauto.
        -- right. eauto.
    + apply lookup_lt_Some in Er. apply lookup_ge_None in Ec. lia.
  - split; [|split]; [discriminate| |discriminate].
    intros _. symmetry. apply lookup_ge_None. apply lookup_ge_None in Er. lia.
Qed.

Lemma sample_table_rect : df_rect Sample.table.
Proof. repeat constructor. Defined.

Lemma remap_labels_witness :
  exists df', change_identifiers Sample.table [("R1", "SampleX")] = Ok df' /\
    df_cell "dataset" 0 df' = Some (CStr "SampleX")
    /\ df_cell "dataset" 1 df' = Some (CStr "A").
Proof.
  destruct (remap_labels Sample.table [("R1", "SampleX")]
              [CStr "R1"; CStr "R2"; CStr "R1"] [CStr "A"; CStr "A"; CStr "B"])
    as (df' & E & H).
  - exact sample_table_rect.
  - apply NoDup_singleton.
  - reflexivity.
  - reflexivity.
  - exists df'. split; [exact E|]. split.
    + destruct (H 0) as (H0 & _ & _). apply (H0 "R1" "SampleX"); [left|reflexivity].
    + destruct (H 1) as (_ & H1 & _). apply H1.
      intros rid Hin. apply list_elem_of_singleton in Hin. subst rid.
      simpl. discriminate.
Defined.

(** C10. The remap step changes the [dataset] column only: on a table
    with a [runIDs] column it ends well, the number of rows is the same,
    the table is still rectangular, and every column other than [dataset]
    ([lengths], [quals], [runIDs], [percentIdentity], and any other) is
    what it was. *)
Theorem remap_frame (df : DataFrame) (d : pydict) (runs : column) :
  df_rect df -> df_col "runIDs" df = Some runs ->
  exists df', change_identifiers df d = Ok df'
    /\ df_nrows df' = df_nrows df
    /\ df_rect df'
    /\ (forall n, n <> "dataset" -> df_col n df' = df_col n df)
    /\ (forall n, n ∈ ["lengths"; "quals"; "runIDs"; "percentIdentity"] ->
        df_col n df' = df_col n df).
Proof.
  intros Hr Hruns.
  destruct (change_identifiers_frame d df runs Hr Hruns) as (df' & E & Hr' & Hn & Hf).
  exists df'. repeat split; try assumption.
  intros n Hin. apply Hf. intros ->.
  repeat (apply elem_of_cons in Hin as [Hin|Hin]; [discriminate Hin|]).
  inversion Hin.
Qed.

Lemma remap_frame_witness :
  exists df', change_identifiers Sample.table [("R1", "SampleX")] = Ok df'
    /\ df_nrows df' = 3
    /\ df_col "lengths" df' = Some [CInt 100; CInt 0; CInt 2000]
    /\ df_col "runIDs" df' = Some [CStr "R1"; CStr "R2"; CStr "R1"].
Proof.
  destruct (remap_frame Sample.table [("R1", "SampleX")]
              [CStr "R1"; CStr "R2"; CStr "R1"] sample_table_rect eq_refl)
    as (df' & E & Hn & _ & Hf & _).
  exists df'. split; [exact E|]. split; [exact Hn|].
  split; apply Hf; discriminate.
Defined.



(** * Properties of the numeric helpers *)

Section Numeric.

Variable log10_pos : Q -> Q.

Lemma np_log10_series_floats (col : column) (fl : list float64) :
  series_to_floats col = Ok fl ->
  np_log10_series log10_pos col
  = Ok ((fun f => CFloat (np_log10 log10_pos f)) <$> fl).
Proof.
  revert fl. induction col as [|c col IH]; simpl; intros fl H.
  - injection H as <-. reflexivity.
  - destruct (cell_to_float c) as [f| |]; try discriminate. simpl in *.
    destruct (series_to_floats col) as [fl'| |]; try discriminate. simpl in *.
    injection H as <-. rewrite (IH fl' eq_refl). reflexivity.
Qed.

Lemma series_to_floats_length (col : column) (fl : list float64) :
  series_to_floats col = Ok fl -> length fl = length col.
Proof.
  revert fl. induction col as [|c col IH]; simpl; intros fl H.
  - injection H as <-. reflexivity.
  - destruct (cell_to_float c) as [f| |]; try discriminate. simpl in *.
    destruct (series_to_floats col) as [fl'| |]; try discriminate. simpl in *.
    injection H as <-. simpl. f_equal. auto.
Qed.

Lemma series_to_floats_cells (col : column) (fl : list float64) :
  series_to_floats col = Ok fl -> cell_to_float <$> col = Ok <$> fl.
Proof.
  revert fl. induction col as [|c col IH]; simpl; intros fl H.
  - injection H as <-. reflexivity.
  - destruct (cell_to_float c) as [f| |] eqn:E; try discriminate. simpl in *.
    destruct (series_to_floats col) as [fl'| |]; try discriminate. simpl in *.
    injection H as <-. rewrite fmap_cons. f_equal. auto.
Qed.

Lemma np_log10_positive (x : Q) :
  (0 < x)%Q -> np_log10 log10_pos (Fin x) = Fin (log10_pos x).
Proof.
  intros H. unfold np_log10, Qsign. rewrite (proj1 (Qlt_alt 0 x) H). reflexivity.
Qed.

Lemma np_log10_nonpositive (x : Q) :
  (x <= 0)%Q -> is_finite (np_log10 log10_pos (Fin x)) = false.
Proof.
  intros H. unfold np_log10, Qsign.
  destruct (0 ?= x)%Q eqn:E; try reflexivity.
  apply Qlt_alt in E. exfalso. apply (Qlt_not_le _ _ E). assumption.
Qed.

End Numeric.

(** the 1st percentile of a column that has a value and no string exists *)
Lemma np_percentile_defined (interpolate : column -> Q -> float64)
    (col : column) (a : list float64) :
  series_to_floats col = Ok a -> a <> [] ->
  exists p, np_percentile interpolate col 1 = Ok p.
Proof.
  intros Hcol Ha. unfold np_percentile. rewrite Hcol.
  destruct a as [|x a]; [contradiction|].
  simpl. destruct (is_nan x || existsb is_nan a); eauto.
Qed.

(** * Rows of a filtered table *)

Section Rows.

Implicit Types (df : DataFrame) (mask : list bool) (k : nat).















End Rows.

(** * The plot orchestration *)

Section Orchestrator.

Variable log10_pos : Q -> Q.
Variable interpolate : column -> Q -> float64.

Implicit Types (df : DataFrame) (args : Args file) (path : str).

Lemma bind_lift_Ok {A B} (a : A) (f : A -> M B) : lift (Ok a) ≫= f = f a.
Proof. unfold mbind, M_bind, lift. simpl. destruct (f a). reflexivity. Qed.

Lemma bind_lift_SysExit {A B} (msg : str) (f : A -> M B) :
  lift (SysExit msg) ≫= f = ([], SysExit msg).
Proof. reflexivity. Qed.

Lemma bind_emit {B} (e : event) (f : unit -> M B) :
  emit e ≫= f = (e :: (f tt).1, (f tt).2).
Proof. reflexivity. Qed.

Lemma bind_mret {A B} (a : A) (f : A -> M B) : mret a ≫= f = f a.
Proof. unfold mbind, M_bind, mret, M_ret. simpl. destruct (f a). reflexivity. Qed.

Lemma df_getitem_Ok name df (col : column) :
  df_col name df = Some col -> df_getitem name df = Ok col.
Proof. unfold df_getitem. intros ->. reflexivity. Qed.

(** the requests that are always made, on the table [df1] *)
Lemma make_plots_unfold df path args (lens : column) fl :
  df_col "lengths" df = Some lens -> series_to_floats lens = Ok fl ->
  let df1 := with_log_length log10_pos fl df in
  let violin := if decide (plot args = "violin") then true else false in
  let identity : M unit :=
    if truthy_list (bam args) then
      ident ← lift (df_getitem "percentIdentity" df1);
      p ← lift (np_percentile interpolate ident 1);
      mask ← lift (series_gt ident p);
      emit (EvViolinOrBox (df_filter mask df1) "percentIdentity" (format args) path
              violin None (title args))
    else mret tt in
  make_plots log10_pos interpolate df path args =
  ([EvBarplot df1 (format args) path (title args);
    EvViolinOrBox df1 "lengths" (format args) path violin None (title args);
    EvViolinOrBox df1 "log length" (format args) path violin (Some true) (title args);
    EvViolinOrBox df1 "quals" (format args) path violin None (title args)]
   ++ identity.1,
   match identity.2 with
   | Ok _ => Ok df1
   | SysExit msg => SysExit msg
   | Raise e => Raise e
   end).
Proof.
  intros Hlens Hfl. unfold make_plots.
  rewrite (df_getitem_Ok _ _ _ Hlens), bind_lift_Ok.
  rewrite (np_log10_series_floats log10_pos _ _ Hfl), bind_lift_Ok.
  fold (with_log_length log10_pos fl df).
  cbv zeta. rewrite !bind_emit. cbn [fst snd app].
  set (identity := if truthy_list (bam args) then _ else _).
  destruct identity as [t [u| |]]; unfold mbind, M_bind; simpl;
    rewrite ?app_nil_r; reflexivity.
Qed.

Lemma make_plots_no_lengths df path args :
  df_col "lengths" df = None ->
  make_plots log10_pos interpolate df path args = ([], Raise (KeyError "lengths")).
Proof.
  intros H. unfold make_plots, df_getitem. rewrite H. reflexivity.
Qed.

Lemma make_plots_bad_lengths df path args (lens : column) :
  df_col "lengths" df = Some lens -> is_ok (series_to_floats lens) = false ->
  trace (make_plots log10_pos interpolate df path args) = [].
Proof.
  intros Hlens Hbad. unfold make_plots.
  rewrite (df_getitem_Ok _ _ _ Hlens), bind_lift_Ok.
  assert (is_ok (np_log10_series log10_pos lens) = false) as Hlog.
  { clear Hlens. induction lens as [|c lens IH]; simpl in *; [discriminate|].
    destruct (cell_to_float c); simpl in *; try reflexivity.
    destruct (series_to_floats lens); simpl in *; try discriminate;
      destruct (np_log10_series log10_pos lens); simpl in *;
      try reflexivity; try (specialize (IH eq_refl); discriminate). }
  destruct (np_log10_series log10_pos lens); try discriminate; reflexivity.
Qed.

Lemma with_log_length_col fl df :
  df_col "log length" (with_log_length log10_pos fl df)
  = Some ((fun f => CFloat (np_log10 log10_pos f)) <$> fl).
Proof. apply df_col_setitem_eq. Qed.

Lemma with_log_length_other fl df n :
  n <> "log length" -> df_col n (with_log_length log10_pos fl df) = df_col n df.
Proof. intros H. apply df_col_setitem_ne. congruence. Qed.

Lemma with_log_length_rect fl df (lens : column) :
  df_rect df -> df_col "lengths" df = Some lens -> series_to_floats lens = Ok fl ->
  df_rect (with_log_length log10_pos fl df)
  /\ df_nrows (with_log_length log10_pos fl df) = df_nrows df.
Proof.
  intros Hr Hlens Hfl.
  assert (length ((fun f => CFloat (np_log10 log10_pos f)) <$> fl) = df_nrows df) as L.
  { rewrite length_fmap, (series_to_floats_length _ _ Hfl).
    eapply df_col_length; eassumption. }
  split; [apply df_rect_setitem|apply df_nrows_setitem]; assumption.
Qed.

(** the identity request, when the column is there *)
Lemma identity_request_run df1 path args violin (ident : column) pf p :
  df_col "percentIdentity" df1 = Some ident ->
  series_to_floats ident = Ok pf -> np_percentile interpolate ident 1 = Ok p ->
  (ident ← lift (df_getitem "percentIdentity" df1);
   p ← lift (np_percentile interpolate ident 1);
   mask ← lift (series_gt ident p);
   emit (EvViolinOrBox (df_filter mask df1) "percentIdentity" (format args) path
           violin None (title args)))
  = ([EvViolinOrBox (df_filter (map (fun f => float_gt f p) pf) df1)
        "percentIdentity" (format args) path violin None (title args)], Ok tt).
Proof.
  intros Hid Hpf Hp.
  rewrite (df_getitem_Ok _ _ _ Hid), bind_lift_Ok.
  rewrite Hp.
  rewrite bind_lift_Ok.
  assert (series_gt ident p = Ok (map (fun f => float_gt f p) pf)) as ->
    by (unfold series_gt; rewrite Hpf; reflexivity).
  rewrite bind_lift_Ok. reflexivity.
Qed.

End Orchestrator.

(** C5. On a table whose [lengths] are numbers (and, for alignment input,
    whose [percentIdentity] column is there, numeric and not empty), the
    orchestration makes its requests in this order and no other: the bar
    plot, then [lengths], then [log length] with the log flag set, then
    [quals], all on the one table that carries the derived column, and
    last, for alignment input only, [percentIdentity]: four requests
    without alignment input, five with it. *)
Theorem plot_requests_in_order (log10_pos : Q -> Q)
    (interpolate : column -> Q -> float64) (df : DataFrame)
    (path : str) (args : Args file) (lens : column) (fl : list float64) :
  df_col "lengths" df = Some lens -> series_to_floats lens = Ok fl ->
  (truthy_list (bam args) = true ->
   exists (ident : column) pf,
     df_col "percentIdentity" df = Some ident
     /\ series_to_floats ident = Ok pf /\ pf <> []) ->
  let df1 := with_log_length log10_pos fl df in
  let violin := if decide (plot args = "violin") then true else false in
  exists identity : list event,
    make_plots log10_pos interpolate df path args =
      ([EvBarplot df1 (format args) path (title args);
        EvViolinOrBox df1 "lengths" (format args) path violin None (title args);
        EvViolinOrBox df1 "log length" (format args) path violin (Some true)
          (title args);
        EvViolinOrBox df1 "quals" (format args) path violin None (title args)]
       ++ identity, Ok df1)
    /\ df_col "log length" df1
       = Some ((fun f => CFloat (np_log10 log10_pos f)) <$> fl)
    /\ (truthy_list (bam args) = false -> identity = [])
    /\ (truthy_list (bam args) = true ->
        exists sub, identity = [EvViolinOrBox sub "percentIdentity" (format args)
                                  path violin None (title args)])
    /\ length (trace (make_plots log10_pos interpolate df path args))
       = if truthy_list (bam args) then 5 else 4.
Proof.
  intros Hlens Hfl Hbam df1 violin.
  rewrite (make_plots_unfold log10_pos interpolate df path args lens fl Hlens Hfl).
  fold df1. fold violin.
  destruct (truthy_list (bam args)) eqn:Eb.
  - destruct (Hbam eq_refl) as (ident & pf & Hid & Hpf & Hne).
    destruct (np_percentile_defined interpolate ident pf Hpf Hne) as [p Hp].
    assert (df_col "percentIdentity" df1 = Some ident) as Hid1.
    { unfold df1. rewrite with_log_length_other by discriminate. exact Hid. }
    rewrite (identity_request_run interpolate df1 path args violin ident pf p
        Hid1 Hpf Hp).
    eexists. split; [reflexivity|].
    split; [apply with_log_length_col|].
    split; [discriminate|]. split; [|reflexivity].
    intros _. eexists. reflexivity.
  - exists []. split; [reflexivity|].
    split; [apply with_log_length_col|].
    split; [reflexivity|]. split; [discriminate|reflexivity].
Qed.

Lemma plot_requests_witness :
  length (trace (make_plots Sample.log10_pos Sample.interpolate Sample.table
      "out/" Sample.args_bam)) = 5
  /\ length (trace (make_plots Sample.log10_pos Sample.interpolate Sample.table
      "./" Sample.args_fastq)) = 4.
Proof.
  split.
  - destruct (plot_requests_in_order Sample.log10_pos Sample.interpolate
      Sample.table "out/"
                Sample.args_bam [CInt 100; CInt 0; CInt 2000]
                [Fin (inject_Z 100); Fin (inject_Z 0); Fin (inject_Z 2000)]
                eq_refl eq_refl) as (identity & _ & _ & _ & _ & H).
    + intros _. exists [CFloat (Fin 90); CFloat (Fin 80); CFloat (Fin 95)].
      exists [Fin 90; Fin 80; Fin 95]. repeat split. discriminate.
    + exact H.
  - destruct (plot_requests_in_order Sample.log10_pos Sample.interpolate
      Sample.table "./"
                Sample.args_fastq [CInt 100; CInt 0; CInt 2000]
                [Fin (inject_Z 100); Fin (inject_Z 0); Fin (inject_Z 2000)]
                eq_refl eq_refl) as (identity & _ & _ & _ & _ & H).
    + discriminate.
    + exact H.
Defined.

(** C9. The derivation sets [log length] to [log10] of [lengths], row by
    row, on the table that every plot is given and that is handed back: a
    positive length gives its logarithm, a length that is not positive
    gives a value that is not finite (minus infinity at zero, NaN below),
    and nothing stops or replaces such a value; the other columns are as
    they were. *)
Theorem log_length_is_log10 (log10_pos : Q -> Q)
    (interpolate : column -> Q -> float64) (df : DataFrame)
    (path : str) (args : Args file) (lens : column) (fl : list float64) :
  df_col "lengths" df = Some lens -> series_to_floats lens = Ok fl ->
  exists df1 rest r (loglen : column),
    make_plots log10_pos interpolate df path args
    = (EvBarplot df1 (format args) path (title args) :: rest, r)
    /\ (truthy_list (bam args) = false -> r = Ok df1)
    /\ (forall n, n <> "log length" -> df_col n df1 = df_col n df)
    /\ df_col "log length" df1 = Some loglen
    /\ length loglen = length lens
    /\ forall i c f, lens !! i = Some c -> cell_to_float c = Ok f ->
         loglen !! i = Some (CFloat (np_log10 log10_pos f))
         /\ (forall x, f = Fin x -> (0 < x)%Q ->
             loglen !! i = Some (CFloat (Fin (log10_pos x))))
         /\ (forall x, f = Fin x -> (x <= 0)%Q ->
             exists g, loglen !! i = Some (CFloat g) /\ is_finite g = false).
Proof.
  intros Hlens Hfl.
  rewrite (make_plots_unfold log10_pos interpolate df path args lens fl Hlens Hfl).
  cbv zeta. simpl app.
  eexists _, _, _, _. split; [reflexivity|].
  split.
  { intros Eb. rewrite Eb. reflexivity. }
  split; [intros n Hn; apply with_log_length_other; assumption|].
  split; [apply with_log_length_col|].
  split; [rewrite length_fmap; apply (series_to_floats_length _ _ Hfl)|].
  intros i c f Hc Hf.
  assert (fl !! i = Some f) as Hi.
  { pose proof (series_to_floats_cells _ _ Hfl) as Hcells.
    apply (f_equal (fun l => l !! i)) in Hcells.
    rewrite !list_lookup_fmap, Hc in Hcells. simpl in Hcells.
    rewrite Hf in Hcells. destruct (fl !! i); simpl in Hcells; congruence. }
  assert (((fun f0 => CFloat (np_log10 log10_pos f0)) <$> fl) !! i
          = Some (CFloat (np_log10 log10_pos f))) as Hl
    by (rewrite list_lookup_fmap, Hi; reflexivity).
  split; [exact Hl|]. split.
  - intros x -> Hx. rewrite Hl, np_log10_positive by assumption. reflexivity.
  - intros x -> Hx. eexists. split; [exact Hl|].
    apply np_log10_nonpositive. assumption.
Qed.

Lemma log_length_witness :
  exists df1 rest,
    make_plots Sample.log10_pos Sample.interpolate Sample.table "./" Sample.args_fastq
    = (EvBarplot df1 "png" "./" None :: rest, Ok df1)
    /\ df_cell "log length" 0 df1
       = Some (CFloat (Fin (Sample.log10_pos (inject_Z 100))))
    /\ df_cell "log length" 1 df1 = Some (CFloat NegInf).
Proof.
  destruct (log_length_is_log10 Sample.log10_pos Sample.interpolate Sample.table "./"
              Sample.args_fastq [CInt 100; CInt 0; CInt 2000]
              [Fin (inject_Z 100); Fin (inject_Z 0); Fin (inject_Z 2000)]
              eq_refl eq_refl)
    as (df1 & rest & r & loglen & E & Hr & _ & Hcol & _ & Hrows).
  exists df1, rest. rewrite <- (Hr eq_refl). split; [exact E|].
  rewrite !(df_cell_col _ _ _ _ Hcol). split.
  - destruct (Hrows 0 (CInt 100) (Fin (inject_Z 100)) eq_refl eq_refl)
      as (_ & Hpos & _).
    apply Hpos; reflexivity.
  - destruct (Hrows 1 (CInt 0) (Fin (inject_Z 0)) eq_refl eq_refl) as (H & _).
    exact H.
Defined.
(** * The identity plot *)

Lemma df_columns_filter (mask : list bool) (df : DataFrame) :
  df_columns (df_filter mask df) = df_columns df.
Proof.
  unfold df_columns, df_filter. rewrite <- list_fmap_compose. reflexivity.
Qed.



(** * The whole run *)

Section Main.

Variable fs : str -> option (result (list str)).
Variable get_input :
  str -> list str -> Z -> str -> option (list str) -> str -> DataFrame.
Variable check_valid_format : str -> str.
Variable upper : str -> str.
Variable log10_pos : Q -> Q.
Variable interpolate : column -> Q -> float64.

Lemma bind_pair_Ok {A B} (t : list event) (a : A) (f : A -> M B) :
  (t, Ok a) ≫= f = (t ++ (f a).1, (f a).2).
Proof. reflexivity. Qed.

Lemma exports_app (t1 t2 : list event) : exports (t1 ++ t2) = exports t1 ++ exports t2.
Proof. unfold exports. apply omap_app. Qed.

Lemma exports_none (t : list event) :
  Forall (fun e => is_export e = false) t -> exports t = [].
Proof.
  induction 1 as [|e t He _ IH]; [reflexivity|].
  unfold exports in *. simpl. destruct e; try discriminate; exact IH.
Qed.

Lemma identity_only_plots (df1 : DataFrame) (path : str) (args : Args file)
    (violin : bool) :
  Forall (fun e => is_plot_request e = true)
    (trace (ident ← lift (df_getitem "percentIdentity" df1);
            p ← lift (np_percentile interpolate ident 1);
            mask ← lift (series_gt ident p);
            emit (EvViolinOrBox (df_filter mask df1) "percentIdentity"
                    (format args) path violin None (title args)))).
Proof.
  destruct (df_getitem "percentIdentity" df1) as [ident| |]; [|constructor ..].
  rewrite bind_lift_Ok.
  destruct (np_percentile interpolate ident 1) as [p| |]; [|constructor ..].
  rewrite bind_lift_Ok.
  destruct (series_gt ident p) as [mask| |]; [|constructor ..].
  rewrite bind_lift_Ok. repeat constructor.
Qed.

(** [make_plots] only ever asks for plots *)
Lemma make_plots_only_plots (df : DataFrame) (path : str) (args : Args file) :
  Forall (fun e => is_plot_request e = true)
         (trace (make_plots log10_pos interpolate df path args)).
Proof.
  destruct (df_col "lengths" df) as [lens|] eqn:Hlens.
  - destruct (series_to_floats lens) as [fl| |] eqn:Hfl.
    + rewrite (make_plots_unfold log10_pos interpolate df path args lens fl Hlens Hfl).
      cbv zeta. unfold trace at 1. cbn [fst].
      apply Forall_app. split; [repeat constructor|].
      destruct (truthy_list (bam args)); [|constructor].
      apply identity_only_plots.
    + rewrite (make_plots_bad_lengths log10_pos interpolate df path args lens Hlens)
        by (rewrite Hfl; reflexivity).
      constructor.
    + rewrite (make_plots_bad_lengths log10_pos interpolate df path args lens Hlens)
        by (rewrite Hfl; reflexivity).
      constructor.
  - rewrite (make_plots_no_lengths log10_pos interpolate df path args Hlens).
      constructor.
Qed.

Lemma plots_are_not_exports (t : list event) :
  Forall (fun e => is_plot_request e = true) t ->
  Forall (fun e => is_export e = false) t.
Proof.
  intros H. eapply Forall_impl; [exact H|]. intros []; simpl; congruence.
Qed.

Lemma chosen_sources {F} (a : Args F) (kind : str) (files : list str) :
  chosen a kind files ->
  getitem (truthy_names ["fastq"; "bam"; "summary"] [fastq a; bam a; summary a]) 0
  = Ok kind
  /\ getitem (truthy_lists [fastq a; bam a; summary a]) 0 = Ok files
  /\ getitem (length <$> truthy_lists [fastq a; summary a; bam a]) 0
     = Ok (length files).
Proof.
  intros [Hne [(-> & -> & -> & ->)|[(-> & -> & -> & ->)|(-> & -> & -> & ->)]]];
    destruct files as [|f files]; try contradiction; repeat split.
Qed.

(** what [get_args] does to the outside is what parsing does *)
Lemma get_args_trace (cl : Args str) :
  trace (get_args fs cl) = parse_events cl id.
Proof.
  unfold get_args, parse_args, parse_events.
  destruct (split_runs cl) as [p|].
  - rewrite bind_emit. destruct (fs p) as [lines|].
    + simpl. destruct (check_names _) as [[]| |]; reflexivity.
    + reflexivity.
  - rewrite bind_mret. simpl. destruct (check_names _) as [[]| |]; reflexivity.
Qed.

Lemma try_except_prefix {A} (t : list event) (m : M A) :
  try_except_Exception (t ++ m.1, m.2)
  = (t ++ (try_except_Exception m).1, (try_except_Exception m).2).
Proof.
  unfold try_except_Exception. destruct m as [tm [a| |]]; simpl;
    rewrite ?app_assoc; reflexivity.
Qed.

(** a run that gets through the command line and the mapping file *)
Lemma main_run (cl : Args str) (args : Args file) (t0 : list event)
    (kind : str) (files : list str) (split_dict : option pydict) :
  get_args fs cl = (t0, Ok args) ->
  chosen args kind files ->
  match split_runs args with
  | Some f => exists d, validate_split_runs_file upper (freadlines f) = Ok d
                        /\ split_dict = Some d
  | None => split_dict = None
  end ->
  let args' := with_format args (check_valid_format (format args)) in
  let datadf :=
    get_input kind files (threads args) (readtype args) (names args) "track" in
  let tail :=
    try_except_Exception (after_export log10_pos interpolate args' split_dict datadf) in
  main fs get_input check_valid_format upper log10_pos interpolate cl =
  (t0 ++ [EvMakeOutputDir (outdir args); EvInitLogs "NanoComp"]
      ++ match split_runs args with
         | Some f => [EvReadlines (fpath f)]
         | None => []
         end
      ++ [EvGetInput kind files (threads args) (readtype args) (names args) "track"]
      ++ (if raw args
          then [EvToCsv raw_export_name PyStr.tab false "gzip" datadf]
          else [])
      ++ tail.1,
   tail.2).
Proof.
  intros Hget Hch Hsd args' datadf tail.
  destruct (chosen_sources args kind files Hch) as (Hk & Hf & _).
  unfold main. rewrite Hget, bind_pair_Ok. cbv zeta.
  change (fastq (with_format args (check_valid_format (format args))))
    with (fastq args).
  change (bam (with_format args (check_valid_format (format args))))
    with (bam args).
  change (summary (with_format args (check_valid_format (format args))))
    with (summary args).
  change (split_runs (with_format args (check_valid_format (format args))))
    with (split_runs args).
  change (raw (with_format args (check_valid_format (format args))))
    with (raw args).
  change (threads (with_format args (check_valid_format (format args))))
    with (threads args).
  change (readtype (with_format args (check_valid_format (format args))))
    with (readtype args).
  change (names (with_format args (check_valid_format (format args))))
    with (names args).
  change (outdir (with_format args (check_valid_format (format args))))
    with (outdir args).
  fold args'.
  rewrite Hk, Hf.
  match goal with |- (_ ++ (try_except_Exception ?X).1, _) = _ =>
    assert (X = ([EvMakeOutputDir (outdir args); EvInitLogs "NanoComp"]
                   ++ match split_runs args with
                      | Some f => [EvReadlines (fpath f)]
                      | None => []
                      end
                   ++ [EvGetInput kind files (threads args) (readtype args)
                         (names args) "track"]
                   ++ (if raw args
                       then [EvToCsv raw_export_name PyStr.tab false "gzip" datadf]
                       else [])
                   ++ (after_export log10_pos interpolate args' split_dict datadf).1,
                 (after_export log10_pos interpolate args' split_dict datadf).2)) as ->
  end.
  { destruct (split_runs args) as [f|].
    - destruct Hsd as (d & Hv & ->). rewrite Hv.
      destruct (raw args);
        repeat (rewrite ?bind_emit, ?bind_lift_Ok, ?bind_mret; cbn [fst snd]);
        reflexivity.
    - subst split_dict.
      destruct (raw args);
        repeat (rewrite ?bind_emit, ?bind_lift_Ok, ?bind_mret; cbn [fst snd]);
        reflexivity. }
  rewrite !app_assoc, try_except_prefix. fold tail.
  rewrite <- !app_assoc. reflexivity.
Qed.

Lemma after_export_no_export (args : Args file) (split_dict : option pydict)
    (datadf : DataFrame) :
  Forall (fun e => is_export e = false)
    (try_except_Exception (after_export log10_pos interpolate args split_dict
        datadf)).1.
Proof.
  unfold after_export.
  assert (forall df,
    Forall (fun e => is_export e = false)
      (try_except_Exception
         (make_plots log10_pos interpolate df (path_join (outdir args) (prefix
             args)) args;;
          emit (EvLogInfo "Succesfully processed all input."))).1) as Hplots.
  { intros df.
    pose proof (plots_are_not_exports _
                  (make_plots_only_plots df (path_join (outdir args) (prefix args))
                     args)) as Hp.
    unfold trace in Hp.
    destruct (make_plots log10_pos interpolate df _ args) as [tp [df'| |]];
      unfold try_except_Exception, mbind, M_bind; simpl in *.
    - apply Forall_app. split; [exact Hp|repeat constructor].
    - exact Hp.
    - apply Forall_app. split; [exact Hp|repeat constructor]. }
  destruct split_dict as [d|].
  - destruct (change_identifiers datadf d) as [df| |].
    + rewrite bind_lift_Ok. apply Hplots.
    + constructor.
    + repeat constructor.
  - rewrite bind_mret. apply Hplots.
Qed.

End Main.

(** * The raw export *)

(** The table that the raw export writes is not the table after the remap
    step and the derivation: on the sample run the export holds the labels
    and the columns of the ingested table, while the table that is remapped
    and given its [log length] differs from it in both. *)
Lemma raw_export_not_remapped_nor_derived :
  exists exported d remapped,
    exports (trace (main Sample.fs Sample.get_input Sample.check_valid_format
                      Sample.upper Sample.log10_pos Sample.interpolate Sample.cmdline))
    = [(raw_export_name, exported)]
    /\ validate_split_runs_file Sample.upper (Ok Sample.mapping) = Ok d
    /\ change_identifiers Sample.table d = Ok remapped
    /\ df_cell "dataset" 0 remapped = Some (CStr "SampleX")
    /\ df_cell "dataset" 0 exported = Some (CStr "A")
    /\ df_col "log length" exported = None
    /\ exported <> remapped
    /\ exported
       <> with_log_length Sample.log10_pos
            [Fin (inject_Z 100); Fin (inject_Z 0); Fin (inject_Z 2000)] remapped.
Proof.
  eexists _, _, _.
  split; [vm_compute; reflexivity|].
  split; [vm_compute; reflexivity|].
  split; [vm_compute; reflexivity|].
  repeat split; try (vm_compute; reflexivity); vm_compute; discriminate.
Qed.

(** C1 (as the code has it). When the raw export is on and the run gets
    through the command line and the mapping file, exactly one table is
    written, under the fixed name [NanoComp-data.tsv.gz] (tab separated,
    gzip, no index), and it is the table as ingestion returned it: the
    export comes right after ingestion, and the remap step, the derivation
    of [log length] and the plots all come after it and do not reach it. *)
Theorem raw_export_is_ingested_table
    (fs : str -> option (result (list str)))
    (get_input : str -> list str -> Z -> str -> option (list str)
                 -> str -> DataFrame)
    (check_valid_format : str -> str) (upper : str -> str)
    (log10_pos : Q -> Q) (interpolate : column -> Q -> float64)
    (cl : Args str) (args : Args file) (t0 : list event)
    (kind : str) (files : list str) (split_dict : option pydict) :
  get_args fs cl = (t0, Ok args) ->
  chosen args kind files ->
  match split_runs args with
  | Some f => exists d, validate_split_runs_file upper (freadlines f) = Ok d
                        /\ split_dict = Some d
  | None => split_dict = None
  end ->
  raw args = true ->
  let run := main fs get_input check_valid_format upper log10_pos interpolate cl in
  let datadf :=
    get_input kind files (threads args) (readtype args) (names args) "track" in
  let args' := with_format args (check_valid_format (format args)) in
  exports (trace run) = [(raw_export_name, datadf)]
  /\ exists before after,
       trace run
       = before
           ++ EvGetInput kind files (threads args) (readtype args) (names args)
                "track"
           :: EvToCsv raw_export_name PyStr.tab false "gzip" datadf
           :: after
       /\ Forall (fun e => is_plot_request e = false) before
       /\ Forall (fun e => is_export e = false) after
       /\ after = (try_except_Exception
                     (after_export log10_pos interpolate args' split_dict datadf)).1.
Proof.
  intros Hget Hch Hsd Hraw run datadf args'.
  unfold run.
  rewrite (main_run fs get_input check_valid_format upper log10_pos interpolate
      cl args t0 kind files
             split_dict Hget Hch Hsd).
  cbv zeta. fold datadf. fold args'. rewrite Hraw. unfold trace. cbn [fst].
  pose proof (after_export_no_export log10_pos interpolate args' split_dict
      datadf) as Htail.
  assert (t0 = parse_events cl id) as Ht0.
  { rewrite <- (get_args_trace fs cl), Hget. reflexivity. }
  split.
  - rewrite !exports_app, (exports_none _ Htail), app_nil_r.
    assert (exports t0 = []) as ->.
    { rewrite Ht0. unfold parse_events. destruct (split_runs cl); reflexivity. }
    destruct (split_runs args); reflexivity.
  - exists (t0 ++ [EvMakeOutputDir (outdir args); EvInitLogs "NanoComp"]
               ++ match split_runs args with
                  | Some f => [EvReadlines (fpath f)]
                  | None => []
                  end).
    eexists. split; [rewrite <- !app_assoc; reflexivity|].
    split; [|split; [exact Htail|reflexivity]].
    apply Forall_app. split.
    + rewrite Ht0. unfold parse_events. destruct (split_runs cl); repeat constructor.
    + destruct (split_runs args); repeat constructor.
Qed.

Lemma raw_export_witness :
  exports (trace (main Sample.fs Sample.get_input Sample.check_valid_format
                    Sample.upper Sample.log10_pos Sample.interpolate Sample.cmdline))
  = [(raw_export_name, Sample.table)].
Proof.
  destruct (raw_export_is_ingested_table Sample.fs Sample.get_input
              Sample.check_valid_format Sample.upper Sample.log10_pos
                  Sample.interpolate Sample.cmdline
              Sample.args_bam [EvOpenRead "map.tsv"] "bam" ["a.bam"; "b.bam"]
              (Some [("R1", "SampleX")])) as [H _].
  - vm_compute. reflexivity.
  - split; [discriminate|]. right. right. repeat split.
  - exists [("R1", "SampleX")]. split; [vm_compute; reflexivity|reflexivity].
  - reflexivity.
  - exact H.
Defined.

(** * The name check *)

(** The name check does not come before every access to the outside: with
    a mapping file on the command line, the file is opened first, and a
    mapping file that cannot be opened ends the run before the check. *)
Lemma name_check_after_open :
  main Sample.fs Sample.get_input Sample.check_valid_format Sample.upper
      Sample.log10_pos Sample.interpolate
       Sample.cmdline_one_name
  = ([EvOpenRead "map.tsv"], SysExit msg_names)
  /\ trace (main Sample.fs Sample.get_input Sample.check_valid_format
              Sample.upper Sample.log10_pos Sample.interpolate
                  Sample.cmdline_one_name) <> []
  /\ ~ is_ConfigurationError
         (outcome (main Sample.fs Sample.get_input Sample.check_valid_format
                     Sample.upper Sample.log10_pos Sample.interpolate
                         Sample.cmdline_missing_map)).
Proof.
  split; [vm_compute; reflexivity|].
  split; vm_compute; discriminate.
Qed.

(** C8 (as the code has it). With one input kind chosen and a mapping
    file, if any, that can be opened: when names are given and their number
    is not the number of files, the run ends with the message about the
    number of names, and all it has done to the outside is what parsing
    the command line does, opening the mapping file when one is named; no
    directory, log, ingestion, export or plot comes before.  When no names
    are given, or as many as files, the command line is accepted. *)
Theorem name_count_checked_after_parsing
    (fs : str -> option (result (list str)))
    (get_input : str -> list str -> Z -> str -> option (list str)
                 -> str -> DataFrame)
    (check_valid_format : str -> str) (upper : str -> str)
    (log10_pos : Q -> Q) (interpolate : column -> Q -> float64)
    (cl : Args str) (kind : str) (files : list str) :
  chosen cl kind files ->
  (forall p, split_runs cl = Some p -> is_Some (fs p)) ->
  (forall nm, names cl = Some nm ->
     nm <> [] /\ length nm <> length files ->
     main fs get_input check_valid_format upper log10_pos interpolate cl
     = (parse_events cl id, SysExit msg_names)
     /\ is_ConfigurationError
          (outcome (main fs get_input check_valid_format upper log10_pos
              interpolate cl)))
  /\ ((names cl = None \/ exists nm, names cl = Some nm /\ length nm = length files) ->
      exists args, get_args fs cl = (parse_events cl id, Ok args)
                   /\ names args = names cl
                   /\ chosen args kind files).
Proof.
  intros Hch Hopen.
  assert (forall F (s : option F),
            check_names (with_split_runs cl s)
            = if truthy_list (names cl)
              then if decide (length (default [] (names cl)) = length files)
                   then Ok tt else SysExit msg_names
              else Ok tt) as Hcheck.
  { intros F s. unfold check_names.
    change (names (with_split_runs cl s)) with (names cl).
    change (fastq (with_split_runs cl s)) with (fastq cl).
    change (summary (with_split_runs cl s)) with (summary cl).
    change (bam (with_split_runs cl s)) with (bam cl).
    destruct (chosen_sources cl kind files Hch) as (_ & _ & ->). reflexivity. }
  assert (exists s : option file,
            parse_args fs cl = (parse_events cl id, Ok (with_split_runs cl s)))
    as [s Hparse].
  { unfold parse_args, parse_events. destruct (split_runs cl) as [p|] eqn:Es.
    - destruct (Hopen p eq_refl) as [lines Hl]. rewrite Hl.
      eexists. reflexivity.
    - eexists. reflexivity. }
  split.
  - intros nm Hnm [Hne Hlen].
    assert (main fs get_input check_valid_format upper log10_pos interpolate cl
            = (parse_events cl id, SysExit msg_names)) as E.
    { unfold main, get_args. rewrite Hparse, bind_pair_Ok, Hcheck, Hnm.
      destruct nm as [|n0 nm]; [contradiction|]. simpl truthy_list. cbn [default].
      rewrite decide_False by exact Hlen.
      rewrite bind_lift_SysExit. cbn [fst snd].
      unfold mbind, M_bind. cbn [fst snd]. rewrite app_nil_r. reflexivity. }
    split; [exact E|]. rewrite E. reflexivity.
  - intros Hnames. exists (with_split_runs cl s).
    split; [|split; [reflexivity|exact Hch]].
    unfold get_args. rewrite Hparse, bind_pair_Ok, Hcheck.
    destruct Hnames as [Hnone|(nm & Hnm & Hlen)].
    + rewrite Hnone. simpl truthy_list. cbn iota.
      rewrite bind_lift_Ok. unfold mret, M_ret. cbn [fst snd].
      rewrite app_nil_r. reflexivity.
    + rewrite Hnm. cbn [default].
      rewrite decide_True by exact Hlen.
      destruct (truthy_list (Some nm));
        rewrite bind_lift_Ok; unfold mret, M_ret; cbn [fst snd];
        rewrite app_nil_r; reflexivity.
Qed.

Lemma name_count_witness :
  main Sample.fs Sample.get_input Sample.check_valid_format Sample.upper
      Sample.log10_pos Sample.interpolate
       Sample.cmdline_one_name
  = ([EvOpenRead "map.tsv"], SysExit msg_names)
  /\ exists args, get_args Sample.fs Sample.cmdline = ([EvOpenRead "map.tsv"], Ok args).
Proof.
  split.
  - destruct (name_count_checked_after_parsing Sample.fs Sample.get_input
                Sample.check_valid_format Sample.upper Sample.log10_pos
                    Sample.interpolate Sample.cmdline_one_name
                "bam" ["a.bam"; "b.bam"]) as [Hbad _].
    + split; [discriminate|]. right. right. repeat split.
    + intros p [= <-]. eexists. vm_compute. reflexivity.
    + destruct (Hbad ["A"] eq_refl) as [E _]; [|exact E].
      split; [discriminate|]. simpl. lia.
  - destruct (name_count_checked_after_parsing Sample.fs Sample.get_input
                Sample.check_valid_format Sample.upper Sample.log10_pos
                    Sample.interpolate Sample.cmdline
                "bam" ["a.bam"; "b.bam"]) as [_ Hgood].
    + split; [discriminate|]. right. right. repeat split.
    + intros p [= <-]. eexists. vm_compute. reflexivity.
    + destruct Hgood as (args & E & _).
      * right. exists ["A"; "B"]. split; reflexivity.
      * exists args. exact E.
Defined.

(** * The scenarios of the specification, run *)

(** Scenario A: alignment input, two files named A and B, no mapping file,
    no export: five plot requests, nothing exported. *)
Example scenario_A :
  let cl := mkArgs 4%Z "out" [] false false "1D" None "png"
                   (Some ["A"; "B"]) "violin" None None None
                   (Some ["a.bam"; "b.bam"]) in
  let run := main Sample.fs Sample.get_input Sample.check_valid_format
                  Sample.upper Sample.log10_pos Sample.interpolate cl in
  outcome run = Ok tt
  /\ length (List.filter is_plot_request (trace run)) = 5
  /\ exports (trace run) = [].
Proof. vm_compute. repeat split. Qed.

(** Scenario B: reads input with a mapping file of one row: the rows of
    run R1 are relabelled, the row of run R2 keeps its label, and four
    plots are requested. *)
Example scenario_B :
  let cl := mkArgs 4%Z "out" [] false false "1D" (Some "map.tsv") "png"
                   None "violin" None (Some ["reads.fastq"]) None None in
  let run := main Sample.fs Sample.get_input Sample.check_valid_format
                  Sample.upper Sample.log10_pos Sample.interpolate cl in
  outcome run = Ok tt
  /\ length (List.filter is_plot_request (trace run)) = 4
  /\ exists df f p t rest before,
       trace run = before ++ EvBarplot df f p t :: rest
       /\ df_col "dataset" df = Some [CStr "SampleX"; CStr "A"; CStr "SampleX"].
Proof.
  vm_compute. split; [reflexivity|]. split; [reflexivity|].
  eexists _, _, _, _, _, [_; _; _; _; _]. split; reflexivity.
Qed.

(** Scenario C: a mapping file with the header in the wrong order stops
    the run before ingestion and before any plot. *)
Example scenario_C :
  let fs := fun p : str => Some (Ok Sample.mapping_bad_header) in
  let run := main fs Sample.get_input Sample.check_valid_format
                  Sample.upper Sample.log10_pos Sample.interpolate Sample.cmdline in
  run = ([EvOpenRead "map.tsv"; EvMakeOutputDir "out"; EvInitLogs "NanoComp";
          EvReadlines "map.tsv"], SysExit msg_header).
Proof. vm_compute. reflexivity. Qed.

(** the file name of the export does not depend on the output directory *)
Example path_join_samples :
  path_join "out" [] = "out/"
  /\ path_join "." "run1_" = "./run1_"
  /\ path_join "out/" "x" = "out/x"
  /\ path_join "out" "/abs" = "/abs".
Proof. vm_compute. repeat split. Qed.

(** rows are read stripped: white space at the ends of a line, tabs
    included, is dropped before the line is split, so a row that ends with
    a tab has lost its empty last field when its fields are counted; the
    no-break space and the other white space beyond ASCII go the same way *)
Example stripped_row_fields :
  fields (PyStr.strip ("SampleX" ++ PyStr.tab :: Sample.nl)) = ["SampleX"]
  /\ fields (PyStr.strip (" " ++ Sample.tsv_line "SampleX" "R1 "))
     = ["SampleX"; "R1"]
  /\ PyStr.strip ("RUN_ID" ++ [0xA0%N; 0x2003%N; 0x85%N]) = "RUN_ID"
  /\ header_ok Sample.upper
       (PyStr.strip (" name" ++ PyStr.tab :: "run_id" ++ Sample.nl)).
Proof. vm_compute. repeat split. Qed.

(** * More on the mapping-file parser *)

Lemma dict_comprehension_Ok_rows (data : list str) (acc d : pydict) :
  dict_comprehension data acc = Ok d ->
  forall c, c ∈ data -> c <> [] -> 2 <= length (fields c).
Proof.
  intros Hd c Hin Hne.
  destruct (decide (length (fields c) < 2)) as [Hs|Hs]; [|lia].
  rewrite (dict_comprehension_short data acc c Hin Hne Hs) in Hd. discriminate.
Qed.

Section MoreParser.

Variable upper : str -> str.

Lemma validate_nil : validate_split_runs_file upper (Ok []) = SysExit msg_format.
Proof. reflexivity. Qed.

(** what the parser makes of the lines it has read *)
Lemma validate_read (lines : list str) :
  (forall e, validate_split_runs_file upper (Ok lines) <> Raise e)
  /\ (validate_split_runs_file upper (Ok lines) = SysExit msg_format <->
      lines = [] \/
      exists h c, header_line lines = Some h /\ header_ok upper h
                  /\ c ∈ data_rows lines /\ c <> []
                  /\ length (fields c) < 2)
  /\ (validate_split_runs_file upper (Ok lines) = SysExit msg_header <->
      exists h, header_line lines = Some h /\ ~ header_ok upper h)
  /\ ((exists d, validate_split_runs_file upper (Ok lines) = Ok d) <->
      exists h, header_line lines = Some h /\ header_ok upper h
                /\ forall c, c ∈ data_rows lines -> c <> [] ->
                             2 <= length (fields c)).
Proof.
  destruct lines as [|first rest].
  - rewrite validate_nil.
    split; [discriminate|]. split; [split; [auto|reflexivity]|].
    split; (split; [|intros (h & Hh & _); discriminate Hh]).
    + discriminate.
    + intros [d Hd]. discriminate.
  - assert (data_rows (first :: rest) = PyStr.strip <$> rest) as -> by reflexivity.
    assert (header_line (first :: rest) = Some (PyStr.strip first)) as ->
      by reflexivity.
    rewrite validate_cons.
    destruct (decide (header_ok upper (PyStr.strip first))) as [Hok|Hbad].
    + destruct (dict_comprehension_outcome (PyStr.strip <$> rest) []) as [[d Hd]|Hd];
        rewrite Hd; simpl.
      * pose proof (dict_comprehension_Ok_rows _ _ _ Hd) as Hrows.
        split; [discriminate|]. split; [|split].
        -- split; [discriminate|].
           intros [|(h & c & _ & _ & Hin & Hne & Hlen)]; [discriminate|].
           specialize (Hrows c Hin Hne). lia.
        -- split; [discriminate|]. intros (h & [= <-] & Hh). contradiction.
        -- split; [eauto|eauto].
      * split; [discriminate|]. split; [|split].
        -- split; [|reflexivity]. intros _. right.
           destruct (decide (Forall (fun c => c <> [] -> 2 <= length (fields c))
                               (PyStr.strip <$> rest))) as [Hall|Hnot].
           ++ rewrite Forall_forall in Hall.
              destruct (dict_comprehension_ok (PyStr.strip <$> rest) [] Hall) as
                  [d Hd'].
              congruence.
           ++ apply not_Forall_Exists in Hnot; [|intros c; apply _].
              apply Exists_exists in Hnot as (c & Hin & Hc).
              exists (PyStr.strip first), c.
              destruct (decide (c = [])) as [->|Hne];
                [exfalso; apply Hc; intros H; contradiction|].
              repeat split; try assumption.
              destruct (decide (length (fields c) < 2)); [assumption|].
              exfalso. apply Hc. intros _. lia.
        -- split; [discriminate|].
           intros (h & [= <-] & Hh). contradiction.
        -- split; [intros [d Hd']; discriminate|].
           intros (h & _ & _ & Hall).
           destruct (dict_comprehension_ok (PyStr.strip <$> rest) [] Hall) as [d Hd'].
           congruence.
    + split; [discriminate|]. split; [|split].
      * split; [discriminate|].
        intros [|(h & c & [= <-] & Hh & _)]; [discriminate|contradiction].
      * split; [eauto|reflexivity].
      * split; [intros [d Hd]; discriminate|].
        intros (h & [= <-] & Hh & _). contradiction.
Qed.

(** X1. The only exceptions that leave the parser are those that
    [readlines()] raises, [IndexError] apart: the parser raises [e]
    exactly when the read raised [e] and [e] is not [IndexError].  An
    [IndexError] of the read ends the run with the message about the file
    format, as one of the parser's own does.  Once the lines are read the
    parser gives a dictionary or ends the run with one of its two
    messages: the message about the file format exactly for a file with
    no line at all and for a file with a right header and a non-empty row
    of fewer than two fields; the message about the header exactly when
    there is a first line and it is not the header; a dictionary in all
    other cases. *)
Theorem validate_outcomes (readlines : result (list str)) :
  (forall e, validate_split_runs_file upper readlines = Raise e <->
             readlines = Raise e /\ e <> IndexError)
  /\ (readlines = Raise IndexError ->
      validate_split_runs_file upper readlines = SysExit msg_format)
  /\ forall lines, readlines = Ok lines ->
      (validate_split_runs_file upper readlines = SysExit msg_format <->
       lines = [] \/
       exists h c, header_line lines = Some h /\ header_ok upper h
                   /\ c ∈ data_rows lines /\ c <> []
                   /\ length (fields c) < 2)
      /\ (validate_split_runs_file upper readlines = SysExit msg_header <->
          exists h, header_line lines = Some h /\ ~ header_ok upper h)
      /\ ((exists d, validate_split_runs_file upper readlines = Ok d) <->
          exists h, header_line lines = Some h /\ header_ok upper h
                    /\ forall c, c ∈ data_rows lines -> c <> [] ->
                                 2 <= length (fields c)).
Proof.
  split; [|split].
  - intros e. destruct readlines as [lines|msg|e'].
    + destruct (validate_read lines) as [Hno _]. split.
      * intros H. exfalso. exact (Hno e H).
      * intros [H _]. discriminate H.
    + split; [discriminate|]. intros [H _]. discriminate H.
    + assert (forall x, x <> IndexError ->
                validate_split_runs_file upper (Raise x) = Raise x) as Hpass
        by (intros [] Hx; try reflexivity; contradiction).
      destruct e';
        [split; [discriminate|intros [[= <-] H]; contradiction]
        |rewrite Hpass by discriminate;
         (split; [intros [= <-]; split; [reflexivity|discriminate]
                 |intros [[= <-] _]; reflexivity]) ..].
  - intros ->. reflexivity.
  - intros lines ->. apply validate_read.
Qed.

Lemma dict_set_keeps_keys (k v rid : str) (d : pydict) :
  is_Some (dict_get rid d) -> is_Some (dict_get rid (dict_set k v d)).
Proof.
  intros H. destruct (decide (k = rid)) as [->|Hne].
  - rewrite dict_get_set_eq. eauto.
  - rewrite dict_get_set_ne by assumption. exact H.
Qed.

Lemma dict_comprehension_keeps_keys (data : list str) (acc d : pydict)
    (rid : str) :
  dict_comprehension data acc = Ok d ->
  is_Some (dict_get rid acc) -> is_Some (dict_get rid d).
Proof.
  revert acc. induction data as [|c data IH]; simpl; intros acc Hd Hacc.
  - congruence.
  - destruct (PyStr.truthy c); [|eauto].
    destruct (getitem (PyStr.split PyStr.tab c) 1) as [k| |]; try discriminate.
    destruct (getitem (PyStr.split PyStr.tab c) 0) as [v| |]; try discriminate.
    simpl in Hd. eapply IH; [exact Hd|]. apply dict_set_keeps_keys. exact Hacc.
Qed.

Lemma dict_comprehension_named (data : list str) (acc d : pydict)
    (rid : str) (c : str) (name : str) :
  dict_comprehension data acc = Ok d ->
  c ∈ data -> names_run c rid name -> is_Some (dict_get rid d).
Proof.
  revert acc. induction data as [|c0 data IH]; simpl; intros acc Hd Hin Hc.
  - inversion Hin.
  - apply elem_of_cons in Hin as [<-|Hin].
    + destruct Hc as (Hne & Hk & Hv). apply truthy_true in Hne. rewrite Hne in Hd.
      apply getitem_Ok in Hk, Hv. unfold fields in Hk, Hv.
      rewrite Hk, Hv in Hd. simpl in Hd.
      eapply dict_comprehension_keeps_keys; [exact Hd|].
      rewrite dict_get_set_eq. eauto.
    + destruct (PyStr.truthy c0); [|eauto].
      destruct (getitem (PyStr.split PyStr.tab c0) 1) as [k| |]; try discriminate.
      destruct (getitem (PyStr.split PyStr.tab c0) 0) as [v| |]; try discriminate.
      simpl in Hd. eauto.
Qed.

Lemma dict_comprehension_origin (data : list str) (acc d : pydict)
    (rid name : str) :
  dict_comprehension data acc = Ok d ->
  dict_get rid d = Some name ->
  (exists c, c ∈ data /\ names_run c rid name) \/ dict_get rid acc = Some name.
Proof.
  revert acc. induction data as [|c data IH]; simpl; intros acc Hd Hget.
  - right. congruence.
  - destruct (PyStr.truthy c) eqn:Ht.
    + destruct (getitem (PyStr.split PyStr.tab c) 1) as [k| |] eqn:Ek; try discriminate.
      destruct (getitem (PyStr.split PyStr.tab c) 0) as [v| |] eqn:Ev; try discriminate.
      simpl in Hd. destruct (IH _ Hd Hget) as [(c' & Hin & Hc')|Hacc].
      * left. exists c'. split; [right; assumption|assumption].
      * destruct (decide (k = rid)) as [->|Hne].
        -- rewrite dict_get_set_eq in Hacc. injection Hacc as ->.
           left. exists c. split; [left|].
           apply truthy_true in Ht. apply getitem_Ok in Ek, Ev.
           split; [assumption|]. split; assumption.
        -- rewrite dict_get_set_ne in Hacc by assumption. right. exact Hacc.
    + destruct (IH _ Hd Hget) as [(c' & Hin & Hc')|Hacc]; [|right; exact Hacc].
      left. exists c'. split; [right; assumption|assumption].
Qed.

(** X2. The dictionary of an accepted mapping file has pairwise distinct
    keys; a run identifier is a key exactly when some data row names it,
    and every entry is the run and the name of one of the rows. *)
Theorem parsed_dict_entries (lines : list str) (d : pydict) :
  validate_split_runs_file upper (Ok lines) = Ok d ->
  NoDup d.*1
  /\ (forall rid, is_Some (dict_get rid d) <->
                  exists c name, c ∈ data_rows lines /\ names_run c rid name)
  /\ (forall rid name, (rid, name) ∈ d ->
                       exists c, c ∈ data_rows lines /\ names_run c rid name).
Proof.
  intros Hv. apply validate_Ok_inv in Hv.
  assert (NoDup d.*1) as Hd.
  { eapply dict_comprehension_NoDup; [|exact Hv]. apply NoDup_nil_2. }
  split; [exact Hd|]. split.
  - intros rid. split.
    + intros [name Hget].
      destruct (dict_comprehension_origin _ _ _ _ _ Hv Hget) as [(c & Hin & Hc)|Hacc];
        [eauto|discriminate].
    + intros (c & name & Hin & Hc). eapply dict_comprehension_named; eassumption.
  - intros rid name Hin. apply dict_get_elem_of in Hin; [|exact Hd].
    destruct (dict_comprehension_origin _ _ _ _ _ Hv Hin) as [(c & Hin' & Hc)|Hacc];
      [eauto|discriminate].
Qed.

Lemma dict_comprehension_blank (data : list str) (acc : pydict) :
  dict_comprehension (List.filter PyStr.truthy data) acc
  = dict_comprehension data acc.
Proof.
  revert acc. induction data as [|c data IH]; intros acc; [reflexivity|].
  simpl. destruct (PyStr.truthy c) eqn:Ht; [|apply IH].
  simpl. rewrite Ht.
  destruct (getitem (PyStr.split PyStr.tab c) 1) as [k| |]; try reflexivity.
  destruct (getitem (PyStr.split PyStr.tab c) 0) as [v| |]; try reflexivity.
  simpl. apply IH.
Qed.

Lemma strip_filter_blank (rest : list str) :
  PyStr.strip <$> List.filter (fun l => PyStr.truthy (PyStr.strip l)) rest
  = List.filter PyStr.truthy (PyStr.strip <$> rest).
Proof.
  induction rest as [|l rest IH]; [reflexivity|].
  rewrite fmap_cons. cbn [List.filter].
  destruct (PyStr.truthy (PyStr.strip l));
    [rewrite fmap_cons; f_equal; exact IH|exact IH].
Qed.

(** X3. Lines that are empty or hold white space only, after the header,
    change nothing: with them taken out of the file the parser gives the
    same dictionary or the same message. *)
Theorem blank_lines_ignored (first : str) (rest : list str) :
  validate_split_runs_file upper
    (Ok (first :: List.filter (fun l => PyStr.truthy (PyStr.strip l)) rest))
  = validate_split_runs_file upper (Ok (first :: rest)).
Proof.
  rewrite !validate_cons.
  destruct (decide (header_ok upper (PyStr.strip first))); [|reflexivity].
  rewrite strip_filter_blank, dict_comprehension_blank. reflexivity.
Qed.

(** X4. Of a data row only its first two fields are read: two files with
    the same header whose rows, one by one, are both empty or agree on the
    name and on the run give the same dictionary or the same message,
    whatever else the rows hold. *)
Theorem further_fields_ignored (first : str) (rest rest' : list str) :
  Forall2 (fun l l' =>
             PyStr.truthy (PyStr.strip l) = PyStr.truthy (PyStr.strip l')
             /\ fields (PyStr.strip l) !! 0 = fields (PyStr.strip l') !! 0
             /\ fields (PyStr.strip l) !! 1 = fields (PyStr.strip l') !! 1)
          rest rest' ->
  validate_split_runs_file upper (Ok (first :: rest))
  = validate_split_runs_file upper (Ok (first :: rest')).
Proof.
  intros H. rewrite !validate_cons.
  destruct (decide (header_ok upper (PyStr.strip first))); [|reflexivity].
  f_equal. generalize ([] : pydict).
  induction H as [|l l' rest rest' (Ht & H0 & H1) _ IH]; intros acc; [reflexivity|].
  rewrite !fmap_cons. simpl. rewrite <- Ht.
  destruct (PyStr.truthy (PyStr.strip l)); [|apply IH].
  unfold getitem. unfold fields in H0, H1. rewrite <- H0, <- H1.
  destruct (PyStr.split PyStr.tab (PyStr.strip l) !! 1); [|reflexivity].
  destruct (PyStr.split PyStr.tab (PyStr.strip l) !! 0); [|reflexivity].
  simpl. apply IH.
Qed.

End MoreParser.

Lemma parsed_dict_entries_witness :
  NoDup ([("R1", "New"); ("R2", "SampleY")] : pydict).*1
  /\ is_Some (dict_get "R2" [("R1", "New"); ("R2", "SampleY")]).
Proof.
  destruct (parsed_dict_entries Sample.upper Sample.mapping_duplicate
              [("R1", "New"); ("R2", "SampleY")]) as (Hnd & Hkeys & _).
  - vm_compute. reflexivity.
  - split; [exact Hnd|]. apply Hkeys.
    exists (PyStr.strip (Sample.tsv_line "SampleY" "R2")), "SampleY".
    split; [vm_compute; do 2 right; left|].
    split; [vm_compute; discriminate|]. split; vm_compute; reflexivity.
Defined.

Lemma further_fields_witness :
  validate_split_runs_file Sample.upper
    (Ok [Sample.tsv_line "NAME" "RUN_ID";
         Sample.tsv_line "SampleX" ("R1" ++ PyStr.tab :: "a comment")])
  = validate_split_runs_file Sample.upper (Ok Sample.mapping).
Proof.
  apply (further_fields_ignored Sample.upper (Sample.tsv_line "NAME" "RUN_ID")
           [Sample.tsv_line "SampleX" ("R1" ++ PyStr.tab :: "a comment")]
           [Sample.tsv_line "SampleX" "R1"]).
  repeat constructor.
Defined.

(** * More on the remap step *)

Lemma df_setitem_same (n : str) (col : column) (df : DataFrame) :
  df_col n df = Some col -> df_setitem n col df = df.
Proof.
  induction df as [|[n0 c0] df IH]; simpl; [discriminate|].
  destruct (str_eqb n0 n); [intros [= ->]; reflexivity|].
  intros H. f_equal. auto.
Qed.

Lemma df_setitem_twice (n : str) (c1 c2 : column) (df : DataFrame) :
  df_setitem n c2 (df_setitem n c1 df) = df_setitem n c2 df.
Proof.
  induction df as [|[n0 c0] df IH]; simpl.
  - rewrite str_eqb_refl. reflexivity.
  - destruct (str_eqb n0 n) eqn:E; simpl; rewrite E; [reflexivity|].
    f_equal. exact IH.
Qed.

Lemma zip_with_snd_same {A B} (xs : list A) (ys : list B) :
  length xs = length ys -> zip_with (fun _ y => y) xs ys = ys.
Proof.
  revert ys. induction xs as [|x xs IH]; intros [|y ys] L; simpl in *;
    try reflexivity; try discriminate.
  f_equal. apply IH. lia.
Qed.

(** the whole remap step as one assignment of the [dataset] column *)
Lemma change_identifiers_closed (d : pydict) (df : DataFrame) (runs ds : column) :
  df_rect df -> df_col "runIDs" df = Some runs -> df_col "dataset" df = Some ds ->
  change_identifiers df d
  = Ok (df_setitem "dataset" (zip_with (relabel d) runs ds) df).
Proof.
  revert df ds. induction d as [|[rid name] d IH]; intros df ds Hr Hruns Hds.
  - simpl. f_equal. symmetry. apply df_setitem_same. rewrite Hds. f_equal.
    symmetry. apply (zip_with_snd_same runs ds).
    rewrite (df_col_length _ _ _ Hr Hruns), (df_col_length _ _ _ Hr Hds). reflexivity.
  - simpl. unfold df_getitem. rewrite Hruns. simpl.
    destruct (loc_set_dataset df runs ds rid name Hr Hruns Hds)
      as (Hr1 & _ & _ & Hf1 & Hd1).
    rewrite (IH _ (zip_with (overwrite rid name) runs ds) Hr1);
      [|rewrite Hf1 by discriminate; exact Hruns|exact Hd1].
    f_equal. unfold loc_set. rewrite Hds, loc_set_mask, df_setitem_twice.
    f_equal. rewrite zip_with_twice. reflexivity.
Qed.

(** with distinct keys, relabelling is a lookup *)
Lemma relabel_lookup (d : pydict) (run label : cell) :
  NoDup d.*1 ->
  relabel d run label
  = match run with
    | CStr rid => match dict_get rid d with
                  | Some name => CStr name
                  | None => label
                  end
    | _ => label
    end.
Proof.
  intros Hd. destruct run as [z|f|rid].
  - apply relabel_not_key. intros; discriminate.
  - apply relabel_not_key. intros; discriminate.
  - destruct (dict_get rid d) as [name|] eqn:E.
    + apply relabel_key; [exact Hd|]. apply dict_get_elem_of; assumption.
    + apply relabel_not_key. intros rid' Hin [= ->].
      assert (is_Some (dict_get rid' d)) as [v Hv]; [|congruence].
      apply list_elem_of_fmap in Hin as ([k v] & -> & Hin).
      exists v. apply dict_get_elem_of; assumption.
Qed.

Lemma dict_get_perm (d d' : pydict) (rid : str) :
  NoDup d.*1 -> d ≡ₚ d' -> dict_get rid d = dict_get rid d'.
Proof.
  intros Hd Hp.
  assert (NoDup d'.*1) as Hd' by (rewrite <- Hp; exact Hd).
  destruct (dict_get rid d) as [name|] eqn:E.
  - symmetry. apply dict_get_elem_of; [exact Hd'|]. rewrite <- Hp.
    apply dict_get_elem_of; assumption.
  - destruct (dict_get rid d') as [name'|] eqn:E'; [|reflexivity].
    apply dict_get_elem_of in E'; [|exact Hd']. rewrite <- Hp in E'.
    apply dict_get_elem_of in E'; [|exact Hd]. congruence.
Qed.

(** X5. The order of the dictionary's items does not matter to the remap
    step: two dictionaries with the same items (keys pairwise distinct)
    give the same table. *)
Theorem remap_order_irrelevant (df : DataFrame) (d d' : pydict)
    (runs ds : column) :
  df_rect df -> NoDup d.*1 -> d ≡ₚ d' ->
  df_col "runIDs" df = Some runs -> df_col "dataset" df = Some ds ->
  change_identifiers df d = change_identifiers df d'.
Proof.
  intros Hr Hd Hp Hruns Hds.
  assert (NoDup d'.*1) as Hd' by (rewrite <- Hp; exact Hd).
  rewrite (change_identifiers_closed d df runs ds Hr Hruns Hds).
  rewrite (change_identifiers_closed d' df runs ds Hr Hruns Hds).
  do 2 f_equal. apply zip_with_ext; [|reflexivity..].
  intros run label. rewrite !relabel_lookup by assumption.
  destruct run; try reflexivity. rewrite (dict_get_perm d d' s Hd Hp). reflexivity.
Qed.

Lemma remap_order_witness :
  change_identifiers Sample.table [("R1", "SampleX"); ("R2", "SampleY")]
  = change_identifiers Sample.table [("R2", "SampleY"); ("R1", "SampleX")].
Proof.
  apply (remap_order_irrelevant Sample.table
           [("R1", "SampleX"); ("R2", "SampleY")]
           [("R2", "SampleY"); ("R1", "SampleX")]
           [CStr "R1"; CStr "R2"; CStr "R1"] [CStr "A"; CStr "A"; CStr "B"]).
  - exact sample_table_rect.
  - apply NoDup_cons. split; [|apply NoDup_singleton].
    intros H. apply list_elem_of_singleton in H. discriminate.
  - apply Permutation_swap.
  - reflexivity.
  - reflexivity.
Defined.

(** X6. The remap step is idempotent: applied to its own result with the
    same dictionary it gives that result again. *)
Theorem remap_idempotent (df df' : DataFrame) (d : pydict) (runs ds : column) :
  df_rect df -> NoDup d.*1 ->
  df_col "runIDs" df = Some runs -> df_col "dataset" df = Some ds ->
  change_identifiers df d = Ok df' ->
  change_identifiers df' d = Ok df'.
Proof.
  intros Hr Hd Hruns Hds E.
  destruct (change_identifiers_frame d df runs Hr Hruns) as (df1 & E1 & Hr' & _ & Hf).
  assert (df1 = df') as -> by congruence.
  rewrite (change_identifiers_closed d df runs ds Hr Hruns Hds) in E.
  injection E as <-.
  rewrite (change_identifiers_closed d _ runs (zip_with (relabel d) runs ds) Hr');
    [|rewrite Hf by discriminate; exact Hruns|apply df_col_setitem_eq].
  f_equal. rewrite df_setitem_twice, zip_with_twice. f_equal.
  apply zip_with_ext; [|reflexivity..].
  intros run label. rewrite !relabel_lookup by assumption.
  destruct run; try reflexivity. destruct (dict_get s d); reflexivity.
Qed.

Lemma remap_idempotent_witness :
  exists df', change_identifiers Sample.table [("R1", "SampleX")] = Ok df'
              /\ change_identifiers df' [("R1", "SampleX")] = Ok df'.
Proof.
  eexists. split; [reflexivity|].
  apply (remap_idempotent Sample.table _ [("R1", "SampleX")]
           [CStr "R1"; CStr "R2"; CStr "R1"] [CStr "A"; CStr "A"; CStr "B"]).
  - exact sample_table_rect.
  - apply NoDup_singleton.
  - reflexivity.
  - reflexivity.
  - reflexivity.
Defined.

Lemma df_setitem_comm (n m : str) (a b : column) (df : DataFrame) :
  n <> m -> is_Some (df_col n df) ->
  df_setitem n a (df_setitem m b df) = df_setitem m b (df_setitem n a df).
Proof.
  intros Hne. induction df as [|[n0 c0] df IH]; simpl; intros Hn.
  - destruct Hn as [? Hn]. discriminate.
  - destruct (str_eqb n0 n) eqn:En; destruct (str_eqb n0 m) eqn:Em; simpl;
      rewrite ?En, ?Em; try reflexivity.
    + apply str_eqb_eq in En, Em. congruence.
    + f_equal. apply IH. exact Hn.
Qed.

(** X21. The remap step and the derivation of [log length] do not depend
    on each other: remapping the table with its derived column gives the
    remapped table with the derived column, the same table as deriving
    after the remap. *)
Theorem remap_and_derivation_commute (log10_pos : Q -> Q) (df : DataFrame)
    (d : pydict) (runs ds lens : column) (fl : list float64) :
  df_rect df ->
  df_col "runIDs" df = Some runs -> df_col "dataset" df = Some ds ->
  df_col "lengths" df = Some lens -> series_to_floats lens = Ok fl ->
  exists remapped,
    change_identifiers df d = Ok remapped
    /\ df_col "lengths" remapped = Some lens
    /\ change_identifiers (with_log_length log10_pos fl df) d
       = Ok (with_log_length log10_pos fl remapped).
Proof.
  intros Hr Hruns Hds Hlens Hfl.
  destruct (with_log_length_rect log10_pos fl df lens Hr Hlens Hfl) as [Hr1 _].
  exists (df_setitem "dataset" (zip_with (relabel d) runs ds) df).
  split; [apply change_identifiers_closed; assumption|].
  split; [rewrite df_col_setitem_ne by discriminate; exact Hlens|].
  rewrite (change_identifiers_closed d _ runs ds Hr1);
    [|rewrite with_log_length_other by discriminate; assumption..].
  f_equal. unfold with_log_length. apply df_setitem_comm; [discriminate|].
  rewrite Hds. eauto.
Qed.

Lemma remap_and_derivation_witness :
  exists remapped,
    change_identifiers Sample.table [("R1", "SampleX")] = Ok remapped
    /\ change_identifiers
         (with_log_length Sample.log10_pos
            [Fin (inject_Z 100); Fin (inject_Z 0); Fin (inject_Z 2000)] Sample.table)
         [("R1", "SampleX")]
       = Ok (with_log_length Sample.log10_pos
               [Fin (inject_Z 100); Fin (inject_Z 0); Fin (inject_Z 2000)] remapped).
Proof.
  destruct (remap_and_derivation_commute Sample.log10_pos Sample.table
              [("R1", "SampleX")] [CStr "R1"; CStr "R2"; CStr "R1"]
              [CStr "A"; CStr "A"; CStr "B"] [CInt 100; CInt 0; CInt 2000]
              [Fin (inject_Z 100); Fin (inject_Z 0); Fin (inject_Z 2000)]
              sample_table_rect eq_refl eq_refl eq_refl eq_refl)
    as (remapped & E & _ & E').
  exists remapped. split; [exact E|exact E'].
Defined.

(** * More on the plot orchestration *)

Section MorePlots.

Variable log10_pos : Q -> Q.
Variable interpolate : column -> Q -> float64.

Implicit Types (df : DataFrame) (args : Args file) (path : str).

Lemma bind_lift_Raise' {A B} (e : exn) (f : A -> M B) :
  lift (Raise e) ≫= f = ([], Raise e).
Proof. reflexivity. Qed.

Lemma np_log10_series_string (col : column) (s : str) :
  CStr s ∈ col -> np_log10_series log10_pos col = Raise TypeError.
Proof.
  induction col as [|c col IH]; intros Hin; [inversion Hin|].
  simpl. destruct c as [z|f|t]; simpl; try reflexivity;
    (apply elem_of_cons in Hin as [Hin|Hin]; [discriminate Hin|]);
    rewrite (IH Hin); reflexivity.
Qed.

Lemma series_to_floats_string (col : column) (s : str) :
  CStr s ∈ col -> series_to_floats col = Raise TypeError.
Proof.
  induction col as [|c col IH]; intros Hin; [inversion Hin|].
  simpl. destruct c as [z|f|t]; simpl; try reflexivity;
    (apply elem_of_cons in Hin as [Hin|Hin]; [discriminate Hin|]);
    rewrite (IH Hin); reflexivity.
Qed.

(** X7. Without a usable [lengths] column nothing is plotted: when the
    column is missing the orchestration raises [KeyError] for it, when it
    holds a str it raises [TypeError], and in both cases not one plot
    request has been made. *)
Theorem no_plot_without_lengths df path args :
  (df_col "lengths" df = None ->
   make_plots log10_pos interpolate df path args = ([], Raise (KeyError "lengths")))
  /\ (forall (lens : column) s,
        df_col "lengths" df = Some lens -> CStr s ∈ lens ->
        make_plots log10_pos interpolate df path args = ([], Raise TypeError)).
Proof.
  split.
  - apply make_plots_no_lengths.
  - intros lens s Hlens Hin. unfold make_plots.
    rewrite (df_getitem_Ok _ _ _ Hlens), bind_lift_Ok.
    rewrite (np_log10_series_string lens s Hin). reflexivity.
Qed.

(** X8. With alignment input the identity plot needs its column: on a
    table without [percentIdentity], or with a str in it, the four
    other plots are requested first and then the orchestration raises
    ([KeyError] for the column, [TypeError] for the str); the table is
    not handed back. *)
Theorem identity_needs_its_column df path args (lens : column) fl :
  df_col "lengths" df = Some lens -> series_to_floats lens = Ok fl ->
  truthy_list (bam args) = true ->
  let df1 := with_log_length log10_pos fl df in
  let violin := if decide (plot args = "violin") then true else false in
  let base :=
    [EvBarplot df1 (format args) path (title args);
     EvViolinOrBox df1 "lengths" (format args) path violin None (title args);
     EvViolinOrBox df1 "log length" (format args) path violin (Some true)
       (title args);
     EvViolinOrBox df1 "quals" (format args) path violin None (title args)] in
  (df_col "percentIdentity" df = None ->
   make_plots log10_pos interpolate df path args = (base, Raise (KeyError
       "percentIdentity")))
  /\ (forall (ident : column) s,
        df_col "percentIdentity" df = Some ident -> CStr s ∈ ident ->
        make_plots log10_pos interpolate df path args = (base, Raise TypeError)).
Proof.
  intros Hlens Hfl Eb df1 violin base.
  rewrite (make_plots_unfold log10_pos interpolate df path args lens fl Hlens Hfl).
  fold df1. fold violin. fold base. rewrite Eb.
  assert (df_col "percentIdentity" df1 = df_col "percentIdentity" df) as Hsame
    by (apply with_log_length_other; discriminate).
  split.
  - intros Hnone. unfold df_getitem. rewrite Hsame, Hnone.
    rewrite bind_lift_Raise'. reflexivity.
  - intros ident s Hid Hin. unfold df_getitem. rewrite Hsame, Hid, bind_lift_Ok.
    unfold np_percentile. rewrite (series_to_floats_string ident s Hin).
    reflexivity.
Qed.

(** the identity part of the orchestration asks for one plot or for none *)
Lemma identity_part_shape df1 path args (violin : bool) :
  let part : M unit :=
    ident ← lift (df_getitem "percentIdentity" df1);
    p ← lift (np_percentile interpolate ident 1);
    mask ← lift (series_gt ident p);
    emit (EvViolinOrBox (df_filter mask df1) "percentIdentity" (format args) path
            violin None (title args)) in
  part.1 = []
  \/ exists sub, part.1 = [EvViolinOrBox sub "percentIdentity" (format args) path
                             violin None (title args)].
Proof.
  cbv zeta.
  destruct (df_getitem "percentIdentity" df1) as [ident| |]; [|left; reflexivity..].
  rewrite bind_lift_Ok.
  destruct (np_percentile interpolate ident 1) as [p| |]; [|left; reflexivity..].
  rewrite bind_lift_Ok.
  destruct (series_gt ident p) as [mask| |]; [|left; reflexivity..].
  rewrite bind_lift_Ok. right. eexists. reflexivity.
Qed.

(** every request carries the options of the call *)
Lemma make_plots_requests_options df path args :
  Forall (fun e =>
            is_plot_request e = true
            /\ request_options e = Some (format args, path, title args)
            /\ forall v, request_style e = Some v ->
                         v = bool_decide (plot args = "violin"))
         (trace (make_plots log10_pos interpolate df path args)).
Proof.
  assert ((if decide (plot args = "violin") then true else false)
          = bool_decide (plot args = "violin")) as Hstyle
    by (case_decide;
        [rewrite bool_decide_eq_true_2 by assumption
        |rewrite bool_decide_eq_false_2 by assumption]; reflexivity).
  destruct (df_col "lengths" df) as [lens|] eqn:Hlens.
  - destruct (series_to_floats lens) as [fl| |] eqn:Hfl.
    + rewrite (make_plots_unfold log10_pos interpolate df path args lens fl Hlens Hfl).
      cbv zeta. unfold trace. cbn [fst]. rewrite Hstyle.
      destruct (truthy_list (bam args)).
      * destruct (identity_part_shape (with_log_length log10_pos fl df) path args
                    (bool_decide (plot args = "violin"))) as [E|[sub E]];
          cbv zeta in E; rewrite E;
          repeat constructor; intros v [= <-]; reflexivity.
      * repeat constructor; intros v [= <-]; reflexivity.
    + rewrite (make_plots_bad_lengths log10_pos interpolate df path args lens Hlens)
        by (rewrite Hfl; reflexivity).
      constructor.
    + rewrite (make_plots_bad_lengths log10_pos interpolate df path args lens Hlens)
        by (rewrite Hfl; reflexivity).
      constructor.
  - rewrite (make_plots_no_lengths log10_pos interpolate df path args Hlens).
      constructor.
Qed.

(** X9. Whatever the table and the options, the plot requests made are
    none at all, or the four that are always made, or those four and the
    identity plot, in this order; each carries the format, the path and
    the title it was called with; the distribution plots are violins
    exactly when the plot option is the word violin; and without alignment
    input there are never five. *)
Theorem plot_requests_shape df path args :
  let t := trace (make_plots log10_pos interpolate df path args) in
  (request_metric <$> t = []
   \/ request_metric <$> t = base_metrics
   \/ request_metric <$> t = base_metrics ++ [Some "percentIdentity"])
  /\ Forall (fun e =>
               is_plot_request e = true
               /\ request_options e = Some (format args, path, title args)
               /\ forall v, request_style e = Some v ->
                            v = bool_decide (plot args = "violin")) t
  /\ (truthy_list (bam args) = false -> length t <> 5).
Proof.
  cbv zeta. split; [|split; [apply make_plots_requests_options|]].
  - destruct (df_col "lengths" df) as [lens|] eqn:Hlens.
    + destruct (series_to_floats lens) as [fl| |] eqn:Hfl.
      * rewrite (make_plots_unfold log10_pos interpolate df path args lens fl
          Hlens Hfl).
        cbv zeta. unfold trace. cbn [fst].
        destruct (truthy_list (bam args)); [|right; left; reflexivity].
        destruct (identity_part_shape (with_log_length log10_pos fl df) path args
                    (if decide (plot args = "violin") then true else false))
          as [E|[sub E]]; cbv zeta in E; rewrite E;
          [right; left; reflexivity|right; right; reflexivity].
      * rewrite (make_plots_bad_lengths log10_pos interpolate df path args lens Hlens)
          by (rewrite Hfl; reflexivity).
        left; reflexivity.
      * rewrite (make_plots_bad_lengths log10_pos interpolate df path args lens Hlens)
          by (rewrite Hfl; reflexivity).
        left; reflexivity.
    + rewrite (make_plots_no_lengths log10_pos interpolate df path args Hlens).
      left; reflexivity.
  - intros Eb.
    destruct (df_col "lengths" df) as [lens|] eqn:Hlens.
    + destruct (series_to_floats lens) as [fl| |] eqn:Hfl.
      * rewrite (make_plots_unfold log10_pos interpolate df path args lens fl
          Hlens Hfl).
        cbv zeta. rewrite Eb. discriminate.
      * rewrite (make_plots_bad_lengths log10_pos interpolate df path args lens Hlens)
          by (rewrite Hfl; reflexivity).
        discriminate.
      * rewrite (make_plots_bad_lengths log10_pos interpolate df path args lens Hlens)
          by (rewrite Hfl; reflexivity).
        discriminate.
    + rewrite (make_plots_no_lengths log10_pos interpolate df path args Hlens).
        discriminate.
Qed.

Lemma np_log10_series_fails (col : column) :
  is_ok (series_to_floats col) = false ->
  is_ok (np_log10_series log10_pos col) = false.
Proof.
  induction col as [|c col IH]; simpl; [discriminate|].
  destruct (cell_to_float c); simpl; try reflexivity.
  destruct (series_to_floats col); simpl; try discriminate;
    intros _; specialize (IH eq_refl);
    destruct (np_log10_series log10_pos col); simpl in *;
    try reflexivity; discriminate.
Qed.

Lemma make_plots_Ok_inv df path args df1 :
  outcome (make_plots log10_pos interpolate df path args) = Ok df1 ->
  exists (lens : column) fl,
    df_col "lengths" df = Some lens /\ series_to_floats lens = Ok fl
    /\ df1 = with_log_length log10_pos fl df.
Proof.
  intros H.
  destruct (df_col "lengths" df) as [lens|] eqn:Hlens.
  - destruct (series_to_floats lens) as [fl| |] eqn:Hfl.
    + exists lens, fl. split; [reflexivity|]. split; [exact Hfl|].
      rewrite (make_plots_unfold log10_pos interpolate df path args lens fl
          Hlens Hfl) in H.
      cbv zeta in H. unfold outcome in H. cbn [snd] in H.
      match type of H with
      | match ?r with _ => _ end = _ => destruct r; congruence
      end.
    + exfalso. unfold make_plots in H.
      rewrite (df_getitem_Ok _ _ _ Hlens), bind_lift_Ok in H.
      pose proof (np_log10_series_fails lens) as Hlog. rewrite Hfl in Hlog.
      specialize (Hlog eq_refl).
      destruct (np_log10_series log10_pos lens); discriminate.
    + exfalso. unfold make_plots in H.
      rewrite (df_getitem_Ok _ _ _ Hlens), bind_lift_Ok in H.
      pose proof (np_log10_series_fails lens) as Hlog. rewrite Hfl in Hlog.
      specialize (Hlog eq_refl).
      destruct (np_log10_series log10_pos lens); discriminate.
  - rewrite (make_plots_no_lengths log10_pos interpolate df path args Hlens) in
      H. discriminate.
Qed.

Lemma df_columns_setitem_new (n : str) (col : column) df :
  n ∉ df_columns df -> df_columns (df_setitem n col df) = df_columns df ++ [n].
Proof.
  unfold df_columns. induction df as [|[n0 c0] df IH]; simpl; intros Hin.
  - reflexivity.
  - apply not_elem_of_cons in Hin as [Hne Hin].
    destruct (str_eqb n0 n) eqn:E; simpl.
    + apply str_eqb_eq in E. congruence.
    + f_equal. apply IH. exact Hin.
Qed.

(** X10. A table that the orchestration hands back is a fixed point of it:
    given that table again, with the same options, the orchestration makes
    the same requests and hands back the same table.  The table has the
    columns it had before, in their order, with [log length] added last
    when it was not there, and, for a rectangular table, as many rows. *)
Theorem make_plots_again df path args df1 :
  outcome (make_plots log10_pos interpolate df path args) = Ok df1 ->
  make_plots log10_pos interpolate df1 path args = make_plots log10_pos
      interpolate df path args
  /\ (df_rect df -> df_rect df1 /\ df_nrows df1 = df_nrows df)
  /\ df_columns df1
     = if decide ("log length" ∈ df_columns df) then df_columns df
       else df_columns df ++ ["log length"].
Proof.
  intros H.
  destruct (make_plots_Ok_inv df path args df1 H) as (lens & fl & Hlens & Hfl & ->).
  assert (df_col "lengths" (with_log_length log10_pos fl df) = Some lens) as Hlens1
    by (rewrite with_log_length_other by discriminate; exact Hlens).
  split; [|split].
  - rewrite (make_plots_unfold log10_pos interpolate _ path args lens fl Hlens1 Hfl).
    rewrite (make_plots_unfold log10_pos interpolate df path args lens fl Hlens Hfl).
    cbv zeta.
    assert (with_log_length log10_pos fl (with_log_length log10_pos fl df)
            = with_log_length log10_pos fl df) as ->
      by (unfold with_log_length; apply df_setitem_twice).
    reflexivity.
  - intros Hr. eapply with_log_length_rect; eassumption.
  - unfold with_log_length. case_decide as Hin.
    + apply df_columns_setitem. exact Hin.
    + apply df_columns_setitem_new. exact Hin.
Qed.

End MorePlots.

Lemma identity_needs_witness :
  exists base,
    make_plots Sample.log10_pos Sample.interpolate
      [("lengths", [CInt 100]); ("quals", [CFloat (Fin 9)])] "out/" Sample.args_bam
    = (base, Raise (KeyError "percentIdentity"))
    /\ length base = 4.
Proof.
  destruct (identity_needs_its_column Sample.log10_pos Sample.interpolate
              [("lengths", [CInt 100]); ("quals", [CFloat (Fin 9)])] "out/"
              Sample.args_bam [CInt 100] [Fin (inject_Z 100)]
              eq_refl eq_refl eq_refl) as [H _].
  eexists. split; [apply H; reflexivity|reflexivity].
Defined.

Lemma make_plots_again_witness :
  exists df1,
    outcome (make_plots Sample.log10_pos Sample.interpolate Sample.table "out/"
        Sample.args_bam) = Ok df1
    /\ make_plots Sample.log10_pos Sample.interpolate df1 "out/" Sample.args_bam
       = make_plots Sample.log10_pos Sample.interpolate Sample.table "out/"
           Sample.args_bam.
Proof.
  eexists. split; [vm_compute; reflexivity|].
  apply (make_plots_again Sample.log10_pos Sample.interpolate Sample.table
      "out/" Sample.args_bam).
  vm_compute. reflexivity.
Defined.

(** * More on the identity plot *)

Lemma select_none {A} (mask : list bool) (l : list A) :
  Forall (fun b => b = false) mask -> select mask l = [].
Proof.
  intros H. revert l. induction H as [|b mask -> _ IH]; intros [|x l];
    simpl; auto.
Qed.

Lemma df_filter_none (mask : list bool) (df : DataFrame) (n : str)
    (col : column) :
  Forall (fun b => b = false) mask ->
  df_col n (df_filter mask df) = Some col -> col = [].
Proof.
  intros Hmask. unfold df_filter.
  induction df as [|[n0 c0] t IH]; simpl; [discriminate|].
  destruct (str_eqb n0 n); [|exact IH].
  intros [= <-]. apply select_none. exact Hmask.
Qed.

Lemma float_gt_nan (f : float64) : float_gt f NaN = false.
Proof. destruct f; reflexivity. Qed.

Lemma existsb_is_nan_elem (pf : list float64) :
  NaN ∈ pf -> existsb is_nan pf = true.
Proof.
  induction pf as [|f pf IH]; intros Hin; [inversion Hin|].
  apply elem_of_cons in Hin as [<-|Hin]; simpl; [reflexivity|].
  rewrite (IH Hin). apply orb_true_r.
Qed.

Section MoreIdentity.

Variable log10_pos : Q -> Q.
Variable interpolate : column -> Q -> float64.

Implicit Types (df : DataFrame) (args : Args file) (path : str).

(** X11. One missing value empties the identity plot: when a
    [percentIdentity] of the table is NaN, the percentile is NaN, no row
    is above it, and the identity plot is requested on a table with all
    its columns and no row. *)
Theorem nan_empties_identity_plot df path args (lens ident : column) fl pf :
  df_col "lengths" df = Some lens -> series_to_floats lens = Ok fl ->
  truthy_list (bam args) = true ->
  df_col "percentIdentity" df = Some ident ->
  series_to_floats ident = Ok pf -> NaN ∈ pf ->
  exists sub earlier,
    make_plots log10_pos interpolate df path args
    = (earlier ++ [EvViolinOrBox sub "percentIdentity" (format args) path
                     (if decide (plot args = "violin") then true else false)
                     None (title args)],
       Ok (with_log_length log10_pos fl df))
    /\ length earlier = 4
    /\ np_percentile interpolate ident 1 = Ok NaN
    /\ df_columns sub = df_columns (with_log_length log10_pos fl df)
    /\ df_rows sub = []
    /\ forall n col, df_col n sub = Some col -> col = [].
Proof.
  intros Hlens Hfl Eb Hid Hpf Hnan.
  assert (np_percentile interpolate ident 1 = Ok NaN) as Hp.
  { unfold np_percentile. rewrite Hpf.
    destruct pf as [|f pf]; [inversion Hnan|]. simpl.
    change (is_nan f || existsb is_nan pf) with (existsb is_nan (f :: pf)).
    rewrite (existsb_is_nan_elem _ Hnan). reflexivity. }
  set (full := with_log_length log10_pos fl df).
  assert (df_col "percentIdentity" full = Some ident) as Hid1.
  { unfold full. rewrite with_log_length_other by discriminate. exact Hid. }
  rewrite (make_plots_unfold log10_pos interpolate df path args lens fl Hlens Hfl).
  fold full. rewrite Eb.
  rewrite (identity_request_run interpolate full path args _ ident pf NaN Hid1 Hpf Hp).
  set (mask := map (fun f => float_gt f NaN) pf).
  assert (Forall (fun b => b = false) mask) as Hmask.
  { unfold mask. apply Forall_forall. intros b Hb.
    apply list_elem_of_In, in_map_iff in Hb as (f & <- & _). apply float_gt_nan. }
  assert (forall n col, df_col n (df_filter mask full) = Some col -> col = [])
    as Hcols.
  { intros n col. apply df_filter_none. exact Hmask. }
  eexists _, _. split; [reflexivity|]. split; [reflexivity|].
  split; [exact Hp|].
  split; [apply df_columns_filter|]. split; [|exact Hcols].
  unfold df_rows.
  assert (df_nrows (df_filter mask full) = 0) as ->; [|reflexivity].
  destruct full as [|[n0 c0] t] eqn:Efull; [reflexivity|].
  simpl. rewrite select_none by exact Hmask. reflexivity.
Qed.

End MoreIdentity.

Lemma nan_empties_witness :
  exists sub earlier,
    make_plots Sample.log10_pos Sample.interpolate
      [("lengths", [CInt 100; CInt 200]);
       ("percentIdentity", [CFloat (Fin 90); CFloat NaN])] "out/" Sample.args_bam
    = (earlier ++ [EvViolinOrBox sub "percentIdentity" "png" "out/" true None None],
       Ok (with_log_length Sample.log10_pos
             [Fin (inject_Z 100); Fin (inject_Z 200)]
             [("lengths", [CInt 100; CInt 200]);
              ("percentIdentity", [CFloat (Fin 90); CFloat NaN])]))
    /\ df_rows sub = [].
Proof.
  destruct (nan_empties_identity_plot Sample.log10_pos Sample.interpolate
              [("lengths", [CInt 100; CInt 200]);
               ("percentIdentity", [CFloat (Fin 90); CFloat NaN])] "out/"
              Sample.args_bam [CInt 100; CInt 200] [CFloat (Fin 90); CFloat NaN]
              [Fin (inject_Z 100); Fin (inject_Z 200)] [Fin 90; NaN]
              eq_refl eq_refl eq_refl eq_refl eq_refl)
    as (sub & earlier & E & _ & _ & _ & Hrows & _).
  - right. left.
  - exists sub, earlier. split; [exact E|exact Hrows].
Defined.


(** * More on the whole run *)

Section MoreMain.

Variable fs : str -> option (result (list str)).
Variable get_input :
  str -> list str -> Z -> str -> option (list str) -> str -> DataFrame.
Variable check_valid_format : str -> str.
Variable upper : str -> str.
Variable log10_pos : Q -> Q.
Variable interpolate : column -> Q -> float64.

Implicit Types (cl : Args str) (args : Args file).

Lemma main_pipeline cl :
  main fs get_input check_valid_format upper log10_pos interpolate cl
  = args ← get_args fs cl;
    try_except_Exception (pipeline get_input check_valid_format upper log10_pos
        interpolate args).
Proof. reflexivity. Qed.

Lemma trace_bind {A B} (m : M A) (f : A -> M B) :
  (m ≫= f).1 = m.1 ++ match m.2 with Ok a => (f a).1 | _ => [] end.
Proof.
  destruct m as [t [a| |]]; unfold mbind, M_bind; simpl;
    rewrite ?app_nil_r; reflexivity.
Qed.

Lemma outcome_bind {A B} (m : M A) (f : A -> M B) :
  (m ≫= f).2 = match m.2 with
               | Ok a => (f a).2
               | SysExit msg => SysExit msg
               | Raise e => Raise e
               end.
Proof. destruct m as [t [a| |]]; reflexivity. Qed.

Lemma try_trace {A} (m : M A) :
  (try_except_Exception m).1
  = m.1 ++ match m.2 with Raise e => [EvLogError e] | _ => [] end.
Proof.
  destruct m as [t [a| |]]; unfold try_except_Exception; simpl;
    rewrite ?app_nil_r; reflexivity.
Qed.

Lemma try_outcome {A} (m : M A) : (try_except_Exception m).2 = m.2.
Proof. destruct m as [t [a| |]]; reflexivity. Qed.

(** X13. A mapping file that the parser refuses ends the run before
    ingestion: the output directory has been made, the logs started and the
    file read, and nothing else happens (no ingestion, no export, no plot);
    the run ends with the parser's message, which is not written to the
    log as an error. *)
Theorem refused_mapping_stops_run cl args (t0 : list event) (f : file)
    (msg : str) :
  get_args fs cl = (t0, Ok args) ->
  split_runs args = Some f ->
  validate_split_runs_file upper (freadlines f) = SysExit msg ->
  main fs get_input check_valid_format upper log10_pos interpolate cl
  = (t0 ++ [EvMakeOutputDir (outdir args); EvInitLogs "NanoComp";
            EvReadlines (fpath f)],
     SysExit msg).
Proof.
  intros Hget Hf Hv. rewrite main_pipeline, Hget, bind_pair_Ok.
  unfold pipeline. rewrite !bind_emit. cbv zeta.
  change (split_runs (with_format args (check_valid_format (format args))))
    with (split_runs args).
  rewrite Hf, bind_emit, Hv. reflexivity.
Qed.

(** X22. A read of the mapping file that fails ends the run where it
    stands: the output directory has been made, the logs started and the
    read tried, and nothing else happens (no ingestion, no export, no
    plot).  The exception of the read goes through the parser, is written
    to the log once and ends the run; an [IndexError] alone is taken by
    the parser for a badly formed file and ends the run with the message
    about the file format, which is not logged. *)
Theorem failed_read_ends_run cl args (t0 : list event) (f : file) (e : exn) :
  get_args fs cl = (t0, Ok args) ->
  split_runs args = Some f ->
  freadlines f = Raise e ->
  let run := main fs get_input check_valid_format upper log10_pos interpolate cl in
  let before :=
    t0 ++ [EvMakeOutputDir (outdir args); EvInitLogs "NanoComp";
           EvReadlines (fpath f)] in
  (e <> IndexError -> run = (before ++ [EvLogError e], Raise e))
  /\ (e = IndexError -> run = (before, SysExit msg_format)).
Proof.
  intros Hget Hf Hr run before. unfold run, before.
  rewrite main_pipeline, Hget, bind_pair_Ok.
  unfold pipeline. rewrite !bind_emit. cbv zeta.
  change (split_runs (with_format args (check_valid_format (format args))))
    with (split_runs args).
  rewrite Hf, bind_emit, Hr. split.
  - intros Hne.
    assert (validate_split_runs_file upper (Raise e) = Raise e) as ->
      by (destruct e; try reflexivity; contradiction).
    unfold try_except_Exception. cbn. rewrite <- app_assoc. reflexivity.
  - intros ->. reflexivity.
Qed.

(** X14. The remap step needs the [runIDs] column: with a mapping file of
    at least one data row and an ingested table without that column, the
    run raises [KeyError] for it after ingestion (and after the raw
    export, when asked for) and before any plot, and logs the error. *)
Theorem remap_needs_run_ids cl args (t0 : list event) (kind : str)
    (files : list str) (f : file) (d : pydict) :
  get_args fs cl = (t0, Ok args) ->
  chosen args kind files ->
  split_runs args = Some f ->
  validate_split_runs_file upper (freadlines f) = Ok d -> d <> [] ->
  let datadf :=
    get_input kind files (threads args) (readtype args) (names args) "track" in
  df_col "runIDs" datadf = None ->
  main fs get_input check_valid_format upper log10_pos interpolate cl
  = (t0 ++ [EvMakeOutputDir (outdir args); EvInitLogs "NanoComp";
            EvReadlines (fpath f);
            EvGetInput kind files (threads args) (readtype args) (names args)
              "track"]
        ++ (if raw args
            then [EvToCsv raw_export_name PyStr.tab false "gzip" datadf]
            else [])
        ++ [EvLogError (KeyError "runIDs")],
     Raise (KeyError "runIDs")).
Proof.
  intros Hget Hch Hf Hv Hne datadf Hruns.
  rewrite (main_run fs get_input check_valid_format upper log10_pos interpolate
      cl args t0 kind files
             (Some d) Hget Hch);
    [|rewrite Hf; eauto].
  cbv zeta. fold datadf. rewrite Hf.
  assert (after_export log10_pos interpolate
            (with_format args (check_valid_format (format args))) (Some d) datadf
          = ([], Raise (KeyError "runIDs"))) as ->.
  { unfold after_export. destruct d as [|[rid name] d]; [contradiction|].
    simpl change_identifiers. unfold df_getitem. rewrite Hruns. reflexivity. }
  unfold try_except_Exception. cbn [fst snd].
  rewrite <- ?app_assoc. reflexivity.
Qed.

(** X17. A run that gets through every step: the table from ingestion is
    remapped with the dictionary of the mapping file (or left as it is
    without one), that table goes to the orchestration together with the
    validated format and the joined path, and the run ends well with the
    closing log line as its last event. *)
Theorem complete_run cl args (t0 : list event) (kind : str)
    (files : list str) (split_dict : option pydict)
    (remapped plotted : DataFrame) :
  get_args fs cl = (t0, Ok args) ->
  chosen args kind files ->
  match split_runs args with
  | Some f => exists d, validate_split_runs_file upper (freadlines f) = Ok d
                        /\ split_dict = Some d
  | None => split_dict = None
  end ->
  let datadf :=
    get_input kind files (threads args) (readtype args) (names args) "track" in
  let args' := with_format args (check_valid_format (format args)) in
  let plots :=
    make_plots log10_pos interpolate remapped (path_join (outdir args) (prefix
        args)) args' in
  match split_dict with
  | Some d => change_identifiers datadf d = Ok remapped
  | None => remapped = datadf
  end ->
  outcome plots = Ok plotted ->
  main fs get_input check_valid_format upper log10_pos interpolate cl
  = (t0 ++ [EvMakeOutputDir (outdir args); EvInitLogs "NanoComp"]
        ++ match split_runs args with
           | Some f => [EvReadlines (fpath f)]
           | None => []
           end
        ++ [EvGetInput kind files (threads args) (readtype args) (names args)
              "track"]
        ++ (if raw args
            then [EvToCsv raw_export_name PyStr.tab false "gzip" datadf]
            else [])
        ++ trace plots ++ [closing_log],
     Ok tt).
Proof.
  intros Hget Hch Hsd datadf args' plots Hremap Hplots.
  rewrite (main_run fs get_input check_valid_format upper log10_pos interpolate
      cl args t0 kind files
             split_dict Hget Hch Hsd).
  cbv zeta. fold datadf. fold args'.
  assert (after_export log10_pos interpolate args' split_dict datadf
          = (trace plots ++ [closing_log], Ok tt)) as ->.
  { unfold after_export.
    assert (match split_dict with
            | Some d => lift (change_identifiers datadf d)
            | None => mret datadf
            end = lift (Ok remapped)) as ->.
    { destruct split_dict as [d|]; [rewrite Hremap; reflexivity|].
      subst remapped. reflexivity. }
    rewrite bind_lift_Ok.
    change (make_plots log10_pos interpolate remapped
              (path_join (outdir args') (prefix args')) args') with plots.
    unfold trace, outcome in *. destruct plots as [tp rp]. simpl in Hplots.
    subst rp. reflexivity. }
  reflexivity.
Qed.

Lemma shape_cons opts ex (e : event) (t : list event) (r : result unit) :
  is_setup e = true -> run_shape opts ex (t, r) ->
  run_shape opts (exports [e] ++ ex) (e :: t, r).
Proof.
  intros He (setup & plots & E & Hs & Hex & Hp). simpl in E.
  exists (e :: setup), plots.
  split; [cbn [fst snd]; rewrite E; reflexivity|].
  split; [constructor; assumption|]. split; [|exact Hp].
  rewrite <- Hex. apply (exports_app [e] setup).
Qed.

Lemma shape_fail opts (r : result unit) :
  is_ok r = false -> run_shape opts [] ([], r).
Proof.
  intros Hr. exists [], []. destruct r; try discriminate; repeat split; constructor.
Qed.

Lemma shape_after_export args (split_dict : option pydict) (datadf : DataFrame) :
  let m := after_export log10_pos interpolate args split_dict datadf in
  run_shape (format args, path_join (outdir args) (prefix args), title args) []
    (m.1, m.2).
Proof.
  cbv zeta. unfold after_export.
  assert (forall df,
    let m := make_plots log10_pos interpolate df (path_join (outdir args)
        (prefix args)) args;;
             emit closing_log in
    run_shape (format args, path_join (outdir args) (prefix args), title args) []
      (m.1, m.2)) as Hplots.
  { intros df. cbv zeta. rewrite trace_bind, outcome_bind.
    pose proof (make_plots_requests_options log10_pos interpolate df
                  (path_join (outdir args) (prefix args)) args) as Hp.
    unfold trace in Hp.
    destruct (make_plots log10_pos interpolate df _ args) as [tp rp]. cbn [fst
        snd] in *.
    exists [], tp. split; [destruct rp; reflexivity|].
    split; [constructor|]. split; [reflexivity|].
    eapply Forall_impl; [exact Hp|]. intros e (H1 & H2 & _). auto. }
  destruct split_dict as [d|].
  - destruct (change_identifiers datadf d) as [df| |].
    + rewrite bind_lift_Ok. apply Hplots.
    + apply shape_fail. reflexivity.
    + apply shape_fail. reflexivity.
  - rewrite bind_mret. apply Hplots.
Qed.

(** every run of the [try] block has the shape of a run *)
Lemma pipeline_shape args :
  exists ex,
    run_shape (check_valid_format (format args),
               path_join (outdir args) (prefix args), title args) ex
      (pipeline get_input check_valid_format upper log10_pos interpolate args)
    /\ (ex = [] \/ (raw args = true /\ exists df, ex = [(raw_export_name, df)])).
Proof.
  unfold pipeline. cbv zeta.
  set (args' := with_format args (check_valid_format (format args))).
  change (split_runs args') with (split_runs args).
  change (raw args') with (raw args).
  pose proof (fun sd df => shape_after_export args' sd df) as Htail.
  cbv zeta in Htail.
  change (format args') with (check_valid_format (format args)) in Htail.
  change (outdir args') with (outdir args) in Htail.
  change (prefix args') with (prefix args) in Htail.
  change (title args') with (title args) in Htail.
  rewrite !bind_emit.
  destruct (split_runs args) as [f|].
  - rewrite bind_emit.
    destruct (validate_split_runs_file upper (freadlines f)) as [d| |].
    + rewrite bind_lift_Ok.
      change (mret (Some d) : M (option pydict)) with (([], Ok (Some d)) : M
          (option pydict)).
      cbn [fst snd]. rewrite bind_pair_Ok.
      destruct (getitem (truthy_names _ _) 0) as [kind| |];
        [rewrite bind_lift_Ok| |];
        [destruct (getitem (truthy_lists _) 0) as [files| |];
         [rewrite bind_lift_Ok, bind_emit; destruct (raw args);
          [rewrite bind_emit|rewrite bind_mret]| |]| |];
        cbn [fst snd]; eexists;
        (split;
         [repeat (eapply shape_cons; [reflexivity|]);
          first [apply Htail|apply shape_fail; reflexivity]|]);
        cbn; eauto.
    + cbn [fst snd]. eexists.
      split; [repeat (eapply shape_cons; [reflexivity|]); apply shape_fail;
              reflexivity|].
      cbn. auto.
    + cbn [fst snd]. eexists.
      split; [repeat (eapply shape_cons; [reflexivity|]); apply shape_fail;
              reflexivity|].
      cbn. auto.
  - rewrite bind_mret.
    destruct (getitem (truthy_names _ _) 0) as [kind| |];
      [rewrite bind_lift_Ok| |];
      [destruct (getitem (truthy_lists _) 0) as [files| |];
       [rewrite bind_lift_Ok, bind_emit; destruct (raw args);
        [rewrite bind_emit|rewrite bind_mret]| |]| |];
      cbn [fst snd]; eexists;
      (split;
       [repeat (eapply shape_cons; [reflexivity|]);
        first [apply Htail|apply shape_fail; reflexivity]|]);
      cbn; eauto.
Qed.

Lemma get_args_Ok_inv cl args (t0 : list event) :
  get_args fs cl = (t0, Ok args) ->
  t0 = parse_events cl id /\ exists s, args = with_split_runs cl s.
Proof.
  intros H. split.
  - rewrite <- (get_args_trace fs cl), H. reflexivity.
  - unfold get_args, parse_args in H.
    destruct (split_runs cl) as [p|].
    + rewrite bind_emit in H. destruct (fs p) as [lines|].
      * change (mret (with_split_runs cl (Some (mkFile p lines))) : M (Args file))
          with (([], Ok (with_split_runs cl (Some (mkFile p lines)))) : M (Args file))
          in H.
        cbn [fst snd] in H. rewrite bind_pair_Ok in H.
        destruct (check_names _) as [[]| |]; cbn in H; try discriminate.
        injection H as _ <-. eauto.
      * discriminate.
    + rewrite bind_mret in H.
      destruct (check_names _) as [[]| |]; cbn in H; try discriminate.
      injection H as _ <-. eauto.
Qed.

Lemma parse_events_setup cl :
  Forall (fun e => is_setup e = true) (parse_events cl id)
  /\ exports (parse_events cl id) = [].
Proof. unfold parse_events. destruct (split_runs cl); repeat constructor. Qed.

(** every run: events before any plot, then plots, then one log line at
    most *)
Lemma main_shape cl :
  let run := main fs get_input check_valid_format upper log10_pos interpolate cl in
  exists setup plots,
    run.1 = setup ++ plots
            ++ match run.2 with
               | Ok _ => [closing_log]
               | Raise e => if is_ok (get_args fs cl).2 then [EvLogError e] else []
               | SysExit _ => []
               end
    /\ Forall (fun e => is_setup e = true) setup
    /\ (exports setup = []
        \/ (raw cl = true /\ exists df, exports setup = [(raw_export_name, df)]))
    /\ Forall (fun e =>
                 is_plot_request e = true
                 /\ request_options e
                    = Some (check_valid_format (format cl),
                            path_join (outdir cl) (prefix cl), title cl)) plots.
Proof.
  cbv zeta. rewrite main_pipeline.
  pose proof (get_args_trace fs cl) as Ht. unfold trace in Ht.
  destruct (parse_events_setup cl) as [Hps Hpe].
  destruct (get_args fs cl) as [t0 r0] eqn:Hget. cbn [fst snd] in *. subst t0.
  destruct r0 as [args| |].
  - destruct (get_args_Ok_inv cl args _ Hget) as [_ [s ->]].
    rewrite bind_pair_Ok, try_trace, try_outcome.
    destruct (pipeline_shape (with_split_runs cl s))
      as (ex & (setup & plots & E & Hs & Hex & Hp) & Hraw).
    exists (parse_events cl id ++ setup), plots. rewrite E.
    split.
    + destruct (pipeline _ _ _ _ _ _).2; cbn [is_ok];
        rewrite <- ?app_assoc, ?app_nil_r; reflexivity.
    + split; [apply Forall_app; split; assumption|].
      split; [|exact Hp].
      rewrite exports_app, Hpe, Hex. exact Hraw.
  - exists (parse_events cl id), []. cbn. rewrite app_nil_r.
    split; [reflexivity|]. split; [exact Hps|]. split; [left; exact Hpe|constructor].
  - exists (parse_events cl id), []. cbn. rewrite app_nil_r.
    split; [reflexivity|]. split; [exact Hps|]. split; [left; exact Hpe|constructor].
Qed.

Lemma exports_plots (plots : list event) :
  Forall (fun e => is_plot_request e = true) plots -> exports plots = [].
Proof.
  intros H. apply exports_none. apply plots_are_not_exports. exact H.
Qed.

(** X15. Whatever the command line, the files and the table, a run writes
    at most one export, under the fixed name and never another; and
    without the raw option it writes none. *)
Theorem at_most_one_export cl :
  let t := trace (main fs get_input check_valid_format upper log10_pos
      interpolate cl) in
  (raw cl = false -> exports t = [])
  /\ (exports t = [] \/ exists df, exports t = [(raw_export_name, df)]).
Proof.
  cbv zeta. unfold trace.
  destruct (main_shape cl) as (setup & plots & E & _ & Hex & Hp).
  cbv zeta in E. rewrite E, !exports_app.
  assert (exports plots = []) as ->.
  { apply exports_plots. eapply Forall_impl; [exact Hp|]. intros e [H _]. exact H. }
  match goal with
  | |- context [exports ?l] =>
      lazymatch l with
      | match _ with _ => _ end => assert (exports l = []) as ->
      end
  end.
  { destruct (main _ _ _ _ _ _ _).2; [reflexivity|reflexivity|].
    destruct (is_ok _); reflexivity. }
  rewrite !app_nil_r.
  destruct Hex as [->|(Hraw & df & ->)].
  - split; [reflexivity|left; reflexivity].
  - split; [congruence|right; eauto].
Qed.

(** X18. Every run is laid out the same way: first the events that come
    before any plot (opening and reading the mapping file, directory, logs,
    ingestion, export), then the plot requests, each with the format that
    was validated, the output directory joined with the prefix, and the
    title, then one log line at most. *)
Theorem run_layout cl :
  exists setup plots closing,
    trace (main fs get_input check_valid_format upper log10_pos interpolate cl)
    = setup ++ plots ++ closing
    /\ Forall (fun e => is_setup e = true) setup
    /\ Forall (fun e =>
                 is_plot_request e = true
                 /\ request_options e
                    = Some (check_valid_format (format cl),
                            path_join (outdir cl) (prefix cl), title cl)) plots
    /\ (closing = [] \/ closing = [closing_log]
        \/ exists e, closing = [EvLogError e]).
Proof.
  destruct (main_shape cl) as (setup & plots & E & Hs & _ & Hp).
  cbv zeta in E. unfold trace. eexists setup, plots, _.
  split; [exact E|]. split; [exact Hs|]. split; [exact Hp|].
  destruct (main _ _ _ _ _ _ _).2; [auto|auto|].
  destruct (is_ok _); eauto.
Qed.

Lemma filter_app_bool {A} (P : A -> bool) (l1 l2 : list A) :
  List.filter P (l1 ++ l2) = List.filter P l1 ++ List.filter P l2.
Proof. apply List.filter_app. Qed.

Lemma filter_none {A} (P Q : A -> bool) (l : list A) :
  Forall (fun x => Q x = true) l -> (forall x, Q x = true -> P x = false) ->
  List.filter P l = [].
Proof.
  intros H HPQ. induction H as [|x l Hx _ IH]; [reflexivity|].
  simpl. rewrite (HPQ x Hx). exact IH.
Qed.

(** X16. Once the command line is accepted, how a run ends shows in the
    log: a run that ends well has the closing line as its last event and
    no error line; a run that ends with an exception has that exception as
    its last event, logged once, and no closing line; a run that ends with
    an exit message has neither line. *)
Theorem log_tells_the_end cl args (t0 : list event) :
  get_args fs cl = (t0, Ok args) ->
  let run := main fs get_input check_valid_format upper log10_pos interpolate cl in
  match outcome run with
  | Ok _ =>
      last (trace run) = Some closing_log
      /\ List.filter is_log_error (trace run) = []
  | Raise e =>
      last (trace run) = Some (EvLogError e)
      /\ List.filter is_log_error (trace run) = [EvLogError e]
      /\ List.filter is_log_info (trace run) = []
  | SysExit _ =>
      List.filter is_log_error (trace run) = []
      /\ List.filter is_log_info (trace run) = []
  end.
Proof.
  intros Hget. cbv zeta. unfold outcome, trace.
  destruct (main_shape cl) as (setup & plots & E & Hs & _ & Hp).
  cbv zeta in E. rewrite Hget in E. cbn [snd is_ok] in E. rewrite E.
  assert (forall P : event -> bool,
            (forall e, is_setup e = true -> P e = false) ->
            (forall e, is_plot_request e = true -> P e = false) ->
            List.filter P setup = [] /\ List.filter P plots = []) as Hnone.
  { intros P H1 H2. split.
    - eapply filter_none; [exact Hs|exact H1].
    - eapply (filter_none P is_plot_request); [|exact H2].
      eapply Forall_impl; [exact Hp|]. intros e [H _]. exact H. }
  destruct (Hnone is_log_error) as [Es Ep];
    [intros []; simpl; congruence..|].
  destruct (Hnone is_log_info) as [Is Ip];
    [intros []; simpl; congruence..|].
  rewrite !filter_app_bool, Es, Ep, Is, Ip, !app_assoc.
  destruct (main _ _ _ _ _ _ _).2.
  - split; [apply last_snoc|reflexivity].
  - split; reflexivity.
  - split; [apply last_snoc|]. split; reflexivity.
Qed.

End MoreMain.

Lemma refused_mapping_witness :
  main (fun _ => Some (Ok Sample.mapping_bad_header)) Sample.get_input
       Sample.check_valid_format Sample.upper Sample.log10_pos
           Sample.interpolate Sample.cmdline
  = ([EvOpenRead "map.tsv"] ++
     [EvMakeOutputDir "out"; EvInitLogs "NanoComp"; EvReadlines "map.tsv"],
     SysExit msg_header).
Proof.
  apply (refused_mapping_stops_run (fun _ => Some (Ok Sample.mapping_bad_header))
           Sample.get_input Sample.check_valid_format Sample.upper
               Sample.log10_pos Sample.interpolate
           Sample.cmdline
           (with_split_runs Sample.cmdline
              (Some (mkFile "map.tsv" (Ok Sample.mapping_bad_header))))
           [EvOpenRead "map.tsv"] (mkFile "map.tsv" (Ok Sample.mapping_bad_header))
           msg_header).
  - vm_compute. reflexivity.
  - reflexivity.
  - vm_compute. reflexivity.
Defined.

Lemma remap_needs_run_ids_witness :
  outcome (main Sample.fs (fun _ _ _ _ _ _ => [("lengths", [CInt 100])])
             Sample.check_valid_format Sample.upper Sample.log10_pos
                 Sample.interpolate Sample.cmdline)
  = Raise (KeyError "runIDs").
Proof.
  rewrite (remap_needs_run_ids Sample.fs (fun _ _ _ _ _ _ => [("lengths", [CInt 100])])
             Sample.check_valid_format Sample.upper Sample.log10_pos
                 Sample.interpolate Sample.cmdline
             Sample.args_bam [EvOpenRead "map.tsv"] "bam" ["a.bam"; "b.bam"]
             (mkFile "map.tsv" (Ok Sample.mapping)) [("R1", "SampleX")]).
  - reflexivity.
  - vm_compute. reflexivity.
  - split; [discriminate|]. right. right. repeat split.
  - reflexivity.
  - vm_compute. reflexivity.
  - discriminate.
  - reflexivity.
Defined.

Lemma complete_run_witness :
  outcome (main Sample.fs Sample.get_input Sample.check_valid_format
             Sample.upper Sample.log10_pos Sample.interpolate Sample.cmdline) = Ok tt.
Proof.
  assert (exists remapped plotted,
            change_identifiers Sample.table [("R1", "SampleX")] = Ok remapped
            /\ outcome (make_plots Sample.log10_pos Sample.interpolate remapped "out/"
                          (with_format Sample.args_bam "png")) = Ok plotted)
    as (remapped & plotted & Hr & Hp).
  { lazymatch eval vm_compute in
      (change_identifiers Sample.table [("R1", "SampleX")]) with
    | Ok ?d =>
        lazymatch eval vm_compute in
          (outcome (make_plots Sample.log10_pos Sample.interpolate d "out/"
                      (with_format Sample.args_bam "png"))) with
        | Ok ?p => exists d, p; split; vm_compute; reflexivity
        end
    end. }
  rewrite (complete_run Sample.fs Sample.get_input Sample.check_valid_format
             Sample.upper Sample.log10_pos Sample.interpolate Sample.cmdline
                 Sample.args_bam
             [EvOpenRead "map.tsv"] "bam" ["a.bam"; "b.bam"]
             (Some [("R1", "SampleX")]) remapped plotted).
  - reflexivity.
  - vm_compute. reflexivity.
  - split; [discriminate|]. right. right. repeat split.
  - exists [("R1", "SampleX")]. split; [vm_compute; reflexivity|reflexivity].
  - exact Hr.
  - exact Hp.
Defined.

Lemma log_tells_witness :
  last (trace (main Sample.fs Sample.get_input Sample.check_valid_format
                 Sample.upper Sample.log10_pos Sample.interpolate
                     Sample.cmdline)) = Some closing_log.
Proof.
  pose proof (log_tells_the_end Sample.fs Sample.get_input
                Sample.check_valid_format Sample.upper Sample.log10_pos
                    Sample.interpolate Sample.cmdline
                Sample.args_bam [EvOpenRead "map.tsv"]) as H.
  cbv zeta in H.
  assert (outcome (main Sample.fs Sample.get_input Sample.check_valid_format
                     Sample.upper Sample.log10_pos Sample.interpolate
                         Sample.cmdline) = Ok tt) as E
    by (vm_compute; reflexivity).
  rewrite E in H. apply H. vm_compute. reflexivity.
Defined.

Lemma failed_read_witness :
  main (fun _ => Some (Raise UnicodeDecodeError)) Sample.get_input
       Sample.check_valid_format Sample.upper Sample.log10_pos
       Sample.interpolate Sample.cmdline
  = ([EvOpenRead "map.tsv"; EvMakeOutputDir "out"; EvInitLogs "NanoComp";
      EvReadlines "map.tsv"; EvLogError UnicodeDecodeError],
     Raise UnicodeDecodeError).
Proof.
  destruct (failed_read_ends_run (fun _ => Some (Raise UnicodeDecodeError))
              Sample.get_input Sample.check_valid_format Sample.upper
              Sample.log10_pos Sample.interpolate Sample.cmdline
              (with_split_runs Sample.cmdline
                 (Some (mkFile "map.tsv" (Raise UnicodeDecodeError))))
              [EvOpenRead "map.tsv"] (mkFile "map.tsv" (Raise UnicodeDecodeError))
              UnicodeDecodeError) as [H _].
  - vm_compute. reflexivity.
  - reflexivity.
  - reflexivity.
  - apply H. discriminate.
Defined.
(** * Writing a mapping file and reading it back *)

Lemma lstrip_first_ok (s : str) : first_ok s = true -> PyStr.lstrip s = s.
Proof.
  destruct s as [|c s]; simpl; [discriminate|].
  destruct (PyStr.isspace c); [discriminate|reflexivity].
Qed.

Lemma first_ok_app (a t : str) :
  first_ok a = true -> first_ok (a ++ t) = true.
Proof. destruct a; simpl; [discriminate|auto]. Qed.

Lemma rstrip_last_ok (s : str) : last_ok s = true -> PyStr.rstrip s = s.
Proof.
  induction s as [|c s IH]; [discriminate|].
  destruct s as [|c' s].
  - simpl. destruct (PyStr.isspace c); [discriminate|reflexivity].
  - intros H. change (last_ok (c :: c' :: s)) with (last_ok (c' :: s)) in H.
    change (PyStr.rstrip (c :: c' :: s))
      with (match PyStr.rstrip (c' :: s) with
            | [] => if PyStr.isspace c then [] else [c]
            | r => c :: r
            end).
    rewrite (IH H). reflexivity.
Qed.

Lemma rstrip_all_space (t : str) : all_space t = true -> PyStr.rstrip t = [].
Proof.
  induction t as [|c t IH]; [reflexivity|]. simpl.
  destruct (PyStr.isspace c); [|discriminate].
  intros H. rewrite (IH H). reflexivity.
Qed.

Lemma rstrip_app_space (s t : str) :
  all_space t = true -> PyStr.rstrip (s ++ t) = PyStr.rstrip s.
Proof.
  intros Ht. induction s as [|c s IH]; simpl.
  - apply rstrip_all_space. exact Ht.
  - rewrite IH. reflexivity.
Qed.

Lemma last_ok_app (a b : str) : b <> [] -> last_ok (a ++ b) = last_ok b.
Proof.
  intros Hb. induction a as [|c a IH]; [reflexivity|].
  assert (exists x t, a ++ b = x :: t) as (x & t & E).
  { destruct a as [|y a]; [|simpl; eauto].
    destruct b as [|y b]; [contradiction|simpl; eauto]. }
  change (last_ok ((c :: a) ++ b)) with (last_ok (c :: (a ++ b))).
  rewrite E. rewrite E in IH. exact IH.
Qed.

Lemma no_break_tab (c : N) (s : str) :
  no_break (c :: s) = true -> (c =? PyStr.tab)%N = false /\ no_break s = true.
Proof.
  simpl. destruct (c =? PyStr.tab)%N; [discriminate|].
  rewrite !andb_true_iff. intros [_ H]. auto.
Qed.

Lemma split_no_tab (s : str) : no_break s = true -> PyStr.split PyStr.tab s = [s].
Proof.
  induction s as [|c s IH]; [reflexivity|].
  intros H. apply no_break_tab in H as [Hc Hs].
  simpl. rewrite Hc, (IH Hs). reflexivity.
Qed.

Lemma split_app_tab (a b : str) :
  no_break a = true ->
  PyStr.split PyStr.tab (a ++ PyStr.tab :: b) = a :: PyStr.split PyStr.tab b.
Proof.
  induction a as [|c a IH].
  - intros _. reflexivity.
  - intros H. apply no_break_tab in H as [Hc Ha].
    simpl. rewrite Hc, (IH Ha). reflexivity.
Qed.

(** a written row is read as its two cells *)
Lemma tsv_line_fields (a b : str) :
  clean_cell a -> clean_cell b -> fields (PyStr.strip (Sample.tsv_line a b)) = [a; b].
Proof.
  intros (Ha1 & Ha2 & Ha3) (Hb1 & Hb2 & Hb3).
  assert (b <> []) as Hb by (intros ->; discriminate).
  unfold fields, PyStr.strip, Sample.tsv_line.
  rewrite lstrip_first_ok by (apply first_ok_app; exact Ha2).
  replace (a ++ PyStr.tab :: b ++ Sample.nl)
    with ((a ++ PyStr.tab :: b) ++ Sample.nl)
    by (rewrite <- app_assoc; reflexivity).
  rewrite rstrip_app_space by reflexivity.
  rewrite rstrip_last_ok.
  - rewrite split_app_tab by exact Ha1. rewrite split_no_tab by exact Hb1. reflexivity.
  - rewrite (last_ok_app a (PyStr.tab :: b)) by discriminate.
    destruct b as [|c b]; [contradiction|]. exact Hb3.
Qed.

Lemma tsv_line_names_run (a b rid name : str) :
  clean_cell a -> clean_cell b ->
  names_run (PyStr.strip (Sample.tsv_line a b)) rid name <-> rid = b /\ name = a.
Proof.
  intros Ha Hb. unfold names_run. rewrite (tsv_line_fields a b Ha Hb). simpl.
  split.
  - intros (_ & [= ->] & [= ->]). auto.
  - intros [-> ->]. split; [|auto].
    intros E. apply (f_equal fields) in E. rewrite (tsv_line_fields a b Ha Hb) in E.
    discriminate.
Qed.

(** X19. A mapping file written from rows of a name and a run (cells not
    empty, without tab or line break in them and without white space at
    their ends), under the header in capitals, which upper-casing leaves
    as it is, is accepted, and reading it gives the rows back: each run
    has the name of its last row, and a run of no row is not in the
    dictionary. *)
Theorem mapping_file_round_trip (upper : str -> str) (rows : list (str * str)) :
  upper ("NAME" ++ PyStr.tab :: "RUN_ID") = "NAME" ++ PyStr.tab :: "RUN_ID" ->
  Forall (fun nr => clean_cell nr.1 /\ clean_cell nr.2) rows ->
  exists d,
    validate_split_runs_file upper (Ok (mapping_file rows)) = Ok d
    /\ (forall pre name rid post,
          rows = pre ++ (name, rid) :: post -> rid ∉ post.*2 ->
          dict_get rid d = Some name)
    /\ (forall rid, rid ∉ rows.*2 -> dict_get rid d = None).
Proof.
  intros Hupper Hclean.
  set (data := PyStr.strip <$> ((fun nr => Sample.tsv_line nr.1 nr.2) <$> rows)).
  assert (forall c, c ∈ data ->
            exists nr, nr ∈ rows /\ c = PyStr.strip (Sample.tsv_line nr.1 nr.2)
                       /\ clean_cell nr.1 /\ clean_cell nr.2) as Hdata.
  { intros c Hc. unfold data in Hc. rewrite <- list_fmap_compose in Hc.
    apply list_elem_of_fmap in Hc as (nr & -> & Hin).
    rewrite Forall_forall in Hclean. destruct (Hclean nr Hin). eauto. }
  assert (validate_split_runs_file upper (Ok (mapping_file rows))
          = try_except_IndexError (dict_comprehension data []) (SysExit msg_format))
    as Hv.
  { unfold mapping_file. rewrite validate_cons.
    rewrite decide_True; [reflexivity|].
    unfold header_ok.
    replace (PyStr.strip (Sample.tsv_line "NAME" "RUN_ID"))
      with ("NAME" ++ PyStr.tab :: "RUN_ID") by (vm_compute; reflexivity).
    rewrite Hupper. vm_compute. reflexivity. }
  destruct (dict_comprehension_ok data []) as [d Hd].
  { intros c Hc _. destruct (Hdata c Hc) as (nr & _ & -> & H1 & H2).
    rewrite (tsv_line_fields _ _ H1 H2). simpl. lia. }
  exists d. rewrite Hv, Hd. split; [reflexivity|]. split.
  - intros pre name rid post Hrows Hpost.
    assert (clean_cell name /\ clean_cell rid) as [Hn Hr].
    { rewrite Forall_forall in Hclean.
      apply (Hclean (name, rid)). rewrite Hrows. apply elem_of_app. right. left. }
    eapply (dict_comprehension_last
              (PyStr.strip <$> ((fun nr => Sample.tsv_line nr.1 nr.2) <$> pre))
              (PyStr.strip (Sample.tsv_line name rid))
              (PyStr.strip <$> ((fun nr => Sample.tsv_line nr.1 nr.2) <$> post))).
    + rewrite <- Hd. unfold data. rewrite Hrows, !fmap_app, !fmap_cons. reflexivity.
    + apply (tsv_line_names_run name rid); auto.
    + intros c name' Hc Hnames. apply Hpost.
      rewrite <- list_fmap_compose in Hc.
      apply list_elem_of_fmap in Hc as (nr & -> & Hin).
      assert (clean_cell nr.1 /\ clean_cell nr.2) as [H1 H2].
      { rewrite Forall_forall in Hclean. apply Hclean. rewrite Hrows.
        apply elem_of_app. right. right. exact Hin. }
      simpl in Hnames. apply (tsv_line_names_run _ _ _ _ H1 H2) in Hnames as [-> _].
      apply list_elem_of_fmap. eauto.
  - intros rid Hnot.
    rewrite (dict_comprehension_untouched data [] d rid Hd); [reflexivity|].
    intros c name Hc Hnames. apply Hnot.
    destruct (Hdata c Hc) as (nr & Hin & -> & H1 & H2).
    apply (tsv_line_names_run _ _ _ _ H1 H2) in Hnames as [-> _].
    apply list_elem_of_fmap. eauto.
Qed.

Lemma mapping_file_witness :
  exists d, validate_split_runs_file Sample.upper
              (Ok (mapping_file [("Old", "R1"); ("Sample Y", "R2"); ("New", "R1")]))
            = Ok d
            /\ dict_get "R1" d = Some "New".
Proof.
  destruct (mapping_file_round_trip Sample.upper
              [("Old", "R1"); ("Sample Y", "R2"); ("New", "R1")])
    as (d & Hv & Hlast & _).
  - vm_compute. reflexivity.
  - repeat constructor.
  - exists d. split; [exact Hv|].
    apply (Hlast [("Old", "R1"); ("Sample Y", "R2")] "New" "R1" []);
      [reflexivity|]. intros H. inversion H.
Defined.
